(** * Field summary queries: top values, distribution, memoisation

    A shallow embedding of [src/queries.ts].  JavaScript numbers are IEEE-754
    binary64 values and are modelled by the kernel's primitive floats; the
    loosely typed cells coming back from the query service are modelled by
    a small universe of JavaScript primitives with their coercions written
    out; exceptions are an explicit [Throw] outcome; the queries sent to the
    SDK are recorded in a log. *)

From Stdlib Require Import ZArith List Floats Uint63 DecimalString Lia.
From stdpp Require Import base option list gmap strings.

Set Default Proof Using "Type".

(** ** JavaScript primitives and their coercions *)

Inductive prim :=
| JUndefined
| JNull
| JBool (b : bool)
| JNumber (x : float)
| JString (s : string).

(** What the JavaScript runtime provides and the source does not define:
    [Number::toString] (used by template literals), [StringToNumber] (used
    by arithmetic and [==] on strings) and [Number.prototype.toLocaleString]. *)
Record Host := {
  numberToString : float → string;
  stringToNumber : string → float;
  numberToLocaleString : float → string
}.

(** Exceptions: [TypeError p] is the error raised by reading property [p]
    of [undefined] or [null]; [Rejected] is a failure of the query
    service. *)
Inductive exn :=
| TypeError (property : string)
| Rejected (reason : string).

Inductive Result (A : Type) :=
| Ok (a : A)
| Throw (e : exn).
Arguments Ok {A} a.
Arguments Throw {A} e.

Definition rbind {A B} (r : Result A) (k : A → Result B) : Result B :=
  match r with Ok a => k a | Throw e => Throw e end.

Notation "'try!' x ':=' r 'in' k" := (rbind r (fun x => k))
  (at level 10, x name, r at level 100, k at level 200).

(** [num_of_nat i] is the JavaScript number holding the loop index [i]. *)
Definition num_of_nat (i : nat) : float := of_uint63 (Uint63.of_Z (Z.of_nat i)).

(** ToBoolean. *)
Definition truthy (p : prim) : bool :=
  match p with
  | JUndefined | JNull => false
  | JBool b => b
  | JNumber x => negb (PrimFloat.eqb x 0 || PrimFloat.is_nan x)
  | JString s => negb (bool_decide (s = ""))
  end.

(** [typeof p === "number"]. *)
Definition typeof_number (p : prim) : bool :=
  match p with JNumber _ => true | _ => false end.

(** [a || b] on already evaluated operands. *)
Definition js_or (a b : prim) : prim := if truthy a then a else b.

Section Coercions.
Context (host : Host).

(** ToString, as applied by a template literal. *)
Definition to_string (p : prim) : string :=
  match p with
  | JUndefined => "undefined"
  | JNull => "null"
  | JBool true => "true"
  | JBool false => "false"
  | JNumber x => numberToString host x
  | JString s => s
  end.

(** ToNumber. *)
Definition to_number (p : prim) : float :=
  match p with
  | JUndefined => nan
  | JNull => 0
  | JBool true => 1
  | JBool false => 0
  | JNumber x => x
  | JString s => stringToNumber host s
  end.

(** Binary [+]: concatenation as soon as one operand is a string. *)
Definition js_add (a b : prim) : prim :=
  match a, b with
  | JString _, _ | _, JString _ => JString (to_string a +:+ to_string b)
  | _, _ => JNumber (to_number a + to_number b)
  end.

(** [p == i] for a number [i] (abstract equality comparison). *)
Definition loose_eq_number (p : prim) (i : float) : bool :=
  match p with
  | JUndefined | JNull => false
  | _ => PrimFloat.eqb (to_number p) i
  end.

(** [p.toLocaleString()]: a property access on [undefined] or [null]
    throws; strings and booleans render as themselves. *)
Definition toLocaleString (p : prim) : Result string :=
  match p with
  | JUndefined | JNull =>
      Throw (TypeError "toLocaleString")
  | JNumber x => Ok (numberToLocaleString host x)
  | _ => Ok (to_string p)
  end.

(** [p && p.toLocaleString()]. *)
Definition and_toLocaleString (p : prim) : Result prim :=
  if truthy p then try! s := toLocaleString p in Ok (JString s) else Ok p.
End Coercions.

(** ** Data model *)

Module Link.
Record t := { url : option string }.
End Link.

(** One raw result cell of a [json_detail] response. *)
Module Cell.
Record t := {
  links : option (list Link.t);
  rendered : option string;
  value : prim
}.
End Cell.

Module SimpleDatum.
Record t := { v : prim; l : option string; n : option float }.
End SimpleDatum.

Inductive Align := left | right.

Module Bin.
Record t := { value : prim; min : prim; max : prim }.
End Bin.

Module Histogram.
Record t := { data : list Bin.t }.
End Histogram.

Module SimpleResult.
Record t := {
  align : list Align;
  data : list (list SimpleDatum.t);
  max : list (option float);
  aux : option string;
  histogram : option Histogram.t
}.
End SimpleResult.

(** An optional property read as a JavaScript value. *)
Definition opt_string (o : option string) : prim :=
  match o with Some s => JString s | None => JUndefined end.

Section Format.
Context (host : Host).

(** [formatData(d)]; [None] is a cell that is missing from its row. *)
Definition formatData (d : option Cell.t) : Result SimpleDatum.t :=
  match d with
  | None => Throw (TypeError "links")
  | Some d =>
      let link :=
        match Cell.links d with
        | Some (l0 :: _) => Link.url l0
        | _ => None
        end in
      let string :=
        js_or (opt_string (Cell.rendered d))
              (JString (to_string host (Cell.value d))) in
      let number :=
        match Cell.value d with JNumber x => Some x | _ => None end in
      Ok {| SimpleDatum.v := string; SimpleDatum.l := link;
            SimpleDatum.n := number |}
  end.
End Format.

(** ** Metadata descriptors (read-only inputs) *)

Module Field.
Record t := {
  name : string;
  category : string;
  type : string;
  label_short : string;
  view_label : string
}.
End Field.

Module Explore.
(** [measures] is [explore.fields.measures]. *)
Record t := { name : string; measures : list Field.t }.
End Explore.

Module Model.
Record t := { name : string }.
End Model.

Inductive ChartKind := Values | Distribution.

Module QueryChartType.
Record t := {
  model : Model.t;
  explore : Explore.t;
  field : Field.t;
  type : ChartKind
}.
End QueryChartType.

(** ** Field capability classifier *)

Definition countFieldForField (explore : Explore.t) (field : Field.t)
  : option Field.t :=
  head (filter (λ f, Field.label_short f = "Count"
                     ∧ Field.view_label f = Field.view_label field)
               (Explore.measures explore)).

Definition canGetTopValues (explore : Explore.t) (field : Field.t) : bool :=
  bool_decide (Field.category field = "dimension")
  && bool_decide (is_Some (countFieldForField explore field)).

Definition canGetDistribution (field : Field.t) : bool :=
  bool_decide (Field.type field = "number")
  && bool_decide (Field.category field = "dimension").

(** ** The query-execution collaborator *)

(** An entry of [dynamic_fields], before [JSON.stringify]. *)
Module DynamicField.
Inductive t :=
| Measure (measure type based_on : string)
| Dimension (dimension expression : string).
End DynamicField.

Module Body.
Record t := {
  total : option bool;
  model : string;
  view : string;
  fields : list string;
  sorts : option (list string);
  dynamic_fields : option (list DynamicField.t)
}.
End Body.

Module InlineQuery.
Record t := { result_format : string; limit : Z; body : Body.t }.
End InlineQuery.

Module Response.
Record t := {
  data : list (gmap string Cell.t);
  totals_data : option (gmap string Cell.t)
}.
End Response.

(** The SDK: what [sdk.ok(sdk.run_inline_query(q))] settles to, given the
    queries already sent. *)
Definition Sdk := list InlineQuery.t → InlineQuery.t → Result Response.t.

(** Computations that talk to the SDK: the log of queries sent so far is
    threaded through, and a [Throw] ends the computation. *)
Definition Q (A : Type) : Type :=
  list InlineQuery.t → Result A * list InlineQuery.t.

Definition qret {A} (a : A) : Q A := λ log, (Ok a, log).

Definition qbind {A B} (m : Q A) (k : A → Q B) : Q B :=
  λ log, match m log with
         | (Ok a, log') => k a log'
         | (Throw e, log') => (Throw e, log')
         end.

Definition qlift {A} (r : Result A) : Q A := λ log, (r, log).

Notation "'let!' x ':=' m 'in' k" := (qbind m (fun x => k))
  (at level 10, x name, m at level 100, k at level 200).

Definition run_inline_query (sdk : Sdk) (q : InlineQuery.t) : Q Response.t :=
  λ log, (sdk log q, log ++ [q]).

(** [xs.map(f)] and [xs.filter(f)] for callbacks that may throw. *)
Fixpoint rmap {A B} (f : A → Result B) (xs : list A) : Result (list B) :=
  match xs with
  | [] => Ok []
  | x :: xs' => try! y := f x in try! ys := rmap f xs' in Ok (y :: ys)
  end.

Fixpoint rfilter {A} (f : A → Result bool) (xs : list A) : Result (list A) :=
  match xs with
  | [] => Ok []
  | x :: xs' =>
      try! b := f x in
      try! ys := rfilter f xs' in
      Ok (if b then x :: ys else ys)
  end.

(** [o.name] for a descriptor that may be [undefined]. *)
Definition field_name (o : option Field.t) : Result string :=
  match o with
  | Some f => Ok (Field.name f)
  | None => Throw (TypeError "name")
  end.

(** [c.value] for a cell that may be [undefined]. *)
Definition cell_value (o : option Cell.t) : Result prim :=
  match o with
  | Some c => Ok (Cell.value c)
  | None => Throw (TypeError "value")
  end.

(** ** Top-values summarizer *)

(** [+data[0][1].n]: the first row must exist; unary plus turns a missing
    [n] into NaN. *)
Definition first_count (data : list (list SimpleDatum.t)) : Result float :=
  match data !! 0%nat with
  | None => Throw (TypeError "1")
  | Some row =>
      match row !! 1%nat with
      | None => Throw (TypeError "n")
      | Some d =>
          Ok (match SimpleDatum.n d with Some x => x | None => nan end)
      end
  end.

(** [totals_data[name].value] *)
Definition totals_value (totals : option (gmap string Cell.t)) (name : string)
  : Result prim :=
  match totals with
  | None => Throw (TypeError name)
  | Some t => cell_value (t !! name)
  end.

Section Summarizers.
Context (host : Host) (sdk : Sdk).

Definition topValuesQuery (model : Model.t) (explore : Explore.t)
    (field : Field.t) (countName : string) : InlineQuery.t :=
  {| InlineQuery.result_format := "json_detail";
     InlineQuery.limit := 10;
     InlineQuery.body :=
       {| Body.total := Some true;
          Body.model := Model.name model;
          Body.view := Explore.name explore;
          Body.fields := [Field.name field; countName];
          Body.sorts := Some [countName +:+ " desc"];
          Body.dynamic_fields := None |} |}.

Definition getTopValues (model : Model.t) (explore : Explore.t)
    (field : Field.t) : Q SimpleResult.t :=
  let countField := countFieldForField explore field in
  let! countName := qlift (field_name countField) in
  let! qr := run_inline_query sdk
               (topValuesQuery model explore field countName) in
  let! data := qlift (rmap (λ row : gmap string Cell.t,
                 try! a := formatData host (row !! Field.name field) in
                 try! b := formatData host (row !! countName) in
                 Ok [a; b]) (Response.data qr)) in
  let! max1 := qlift (first_count data) in
  let! total := qlift (totals_value (Response.totals_data qr) countName) in
  let! total_s := qlift (toLocaleString host total) in
  qret {| SimpleResult.align := [left; right];
          SimpleResult.data := data;
          SimpleResult.max := [None; Some max1];
          SimpleResult.aux := Some (total_s +:+ " rows");
          SimpleResult.histogram := None |}.

(** ** Distribution summarizer *)

Definition binCount : nat := 20.

Definition statsQuery (model : Model.t) (explore : Explore.t)
    (field : Field.t) : InlineQuery.t :=
  {| InlineQuery.result_format := "json_detail";
     InlineQuery.limit := 10;
     InlineQuery.body :=
       {| Body.total := None;
          Body.model := Model.name model;
          Body.view := Explore.name explore;
          Body.fields := ["min"; "max"; "average"];
          Body.sorts := None;
          Body.dynamic_fields := Some
            [DynamicField.Measure "min" "min" (Field.name field);
             DynamicField.Measure "max" "max" (Field.name field);
             DynamicField.Measure "average" "average" (Field.name field)]
       |} |}.

Definition binSizeOf (minv maxv : prim) : float :=
  let range := abs (to_number host maxv - to_number host minv) in
  range / num_of_nat binCount.

(** The [for] loop that fills [bins]. *)
Definition binsOf (minv maxv : prim) : list (prim * prim) :=
  let binSize := binSizeOf minv maxv in
  map (λ i, (js_add host minv (JNumber (binSize * num_of_nat i)),
             js_add host minv (JNumber (binSize * num_of_nat (i + 1)))))
      (seq 0 binCount).

Definition newline : string := String (Ascii.ascii_of_nat 10) EmptyString.

Definition join (sep : string) (xs : list string) : string :=
  match xs with
  | [] => ""
  | x :: xs' => fold_left (λ acc y, acc +:+ sep +:+ y) xs' x
  end.

Definition binExpressionOf (field : Field.t) (bins : list (prim * prim))
  : string :=
  let ref := "${" +:+ Field.name field +:+ "}" in
  let binClauses :=
    join ("," +:+ newline)
      (imap (λ i (b : prim * prim),
         "if(" +:+ ref +:+ " <= " +:+ to_string host b.2 +:+ ", "
           +:+ to_string host (JNumber (num_of_nat i)) +:+ ", null)") bins) in
  "coalesce(" +:+ binClauses +:+ ")".

Definition histogramQuery (model : Model.t) (explore : Explore.t)
    (countName binExpression : string) : InlineQuery.t :=
  {| InlineQuery.result_format := "json_detail";
     InlineQuery.limit := 10;
     InlineQuery.body :=
       {| Body.total := None;
          Body.model := Model.name model;
          Body.view := Explore.name explore;
          Body.fields := ["bin"; countName];
          Body.sorts := None;
          Body.dynamic_fields :=
            Some [DynamicField.Dimension "bin" binExpression] |} |}.

(** [rows.filter(d => d.bin.value == i)] *)
Definition rowsOfBin (rows : list (gmap string Cell.t)) (i : nat)
  : Result (list (gmap string Cell.t)) :=
  rfilter (λ d : gmap string Cell.t,
    try! b := cell_value (d !! "bin") in
    Ok (loose_eq_number host b (num_of_nat i))) rows.

(** One element of [histogram.data]. *)
Definition binDatum (rows : list (gmap string Cell.t)) (countName : string)
    (i : nat) (b : prim * prim) : Result Bin.t :=
  try! matching := rowsOfBin rows i in
  try! value :=
    match head matching with
    | Some row => cell_value (row !! countName)
    | None => Ok (JNumber 0)
    end in
  Ok {| Bin.value := value; Bin.min := b.1; Bin.max := b.2 |}.

Fixpoint rimap_from {A B} (i : nat) (f : nat → A → Result B) (xs : list A)
  : Result (list B) :=
  match xs with
  | [] => Ok []
  | x :: xs' =>
      try! y := f i x in
      try! ys := rimap_from (S i) f xs' in
      Ok (y :: ys)
  end.

Definition histogramOf (rows : list (gmap string Cell.t))
    (countName : string) (bins : list (prim * prim)) : Result Histogram.t :=
  try! data := rimap_from 0 (binDatum rows countName) bins in
  Ok {| Histogram.data := data |}.

Definition labelled (label : string) (v : prim) : list SimpleDatum.t :=
  [ {| SimpleDatum.v := JString label; SimpleDatum.l := None;
       SimpleDatum.n := None |};
    {| SimpleDatum.v := v; SimpleDatum.l := None; SimpleDatum.n := None |} ].

Definition getDistribution (model : Model.t) (explore : Explore.t)
    (field : Field.t) : Q SimpleResult.t :=
  let countField := countFieldForField explore field in
  let! qr := run_inline_query sdk (statsQuery model explore field) in
  let! row0 := qlift
    match Response.data qr !! 0%nat with
    | Some r => Ok r
    | None => Throw (TypeError "min")
    end in
  let min := row0 !! "min" in
  let max := row0 !! "max" in
  let average := row0 !! "average" in
  let! maxv := qlift (cell_value max) in
  let! minv := qlift (cell_value min) in
  let bins := binsOf minv maxv in
  let! histogram :=
    if truthy minv then
      let binExpression := binExpressionOf field bins in
      let! countName := qlift (field_name countField) in
      let! histogramQR := run_inline_query sdk
        (histogramQuery model explore countName binExpression) in
      let! h := qlift (histogramOf (Response.data histogramQR)
                         countName bins) in
      qret (Some h)
    else qret None in
  let! min_s := qlift (and_toLocaleString host minv) in
  let! max_s := qlift (and_toLocaleString host maxv) in
  let! averagev := qlift (cell_value average) in
  let! average_s := qlift (and_toLocaleString host averagev) in
  qret {| SimpleResult.align := [left; right];
          SimpleResult.histogram := histogram;
          SimpleResult.data :=
            [labelled "Min" min_s; labelled "Max" max_s;
             labelled "Average" average_s];
          SimpleResult.max := [None; None];
          SimpleResult.aux := None |}.
End Summarizers.

(** ** Query memoization cache *)

Section Cache.
Context {T : Type} (truthyT : T → bool).

(** [!cache[key]]: a missing property reads as [undefined]. *)
Definition cache_miss (cache : gmap string T) (key : string) : bool :=
  match cache !! key with
  | Some v => negb (truthyT v)
  | None => true
  end.

Definition getCached (cache : gmap string T) (key : string) : option T :=
  cache !! key.

(** [localCache] is an [async] function with one suspension point,
    [await getter()].  [localCache_enter] is the part that runs when the
    function is called: either it calls the getter and suspends, or it
    returns [cache[key]] at once. *)
Inductive Entered :=
| AwaitGetter
| Return (r : option T).

Definition localCache_enter (cache : gmap string T) (key : string)
  : Entered :=
  if cache_miss cache key then AwaitGetter else Return (cache !! key).

(** [localCache_resume] is the part that runs when the awaited getter has
    settled: a fulfilled value is stored and [cache[key]] is returned; a
    rejection is rethrown before the assignment. *)
Definition localCache_resume (cache : gmap string T) (key : string)
    (settled : Result T) : Result (option T) * gmap string T :=
  match settled with
  | Ok v => let cache' := <[key := v]> cache in (Ok (cache' !! key), cache')
  | Throw e => (Throw e, cache)
  end.

(** The module state seen by one call that runs to completion on its
    own: the cache object and the queries sent so far. *)
Record World := { cache : gmap string T; log : list InlineQuery.t }.

Definition localCache (key : string) (getter : Q T)
  : World → Result (option T) * World :=
  λ w, match localCache_enter (cache w) key with
       | Return r => (Ok r, w)
       | AwaitGetter =>
           let '(settled, log') := getter (log w) in
           let '(r, cache') := localCache_resume (cache w) key settled in
           (r, {| cache := cache'; log := log' |})
       end.

(** Several calls in flight.  [Call key] runs a new call up to its
    suspension point; [Settle c outcome] resumes call number [c] with the
    outcome of its getter.  [invoked] lists the keys whose getter was
    called, in order; [returned] holds what each finished call gave back. *)
Record Async := {
  a_cache : gmap string T;
  invoked : list string;
  pending : gmap nat string;
  returned : gmap nat (Result (option T));
  next_call : nat
}.

Inductive event :=
| Call (key : string)
| Settle (call : nat) (outcome : Result T).

Definition async_init : Async :=
  {| a_cache := ∅; invoked := []; pending := ∅; returned := ∅;
     next_call := 0 |}.

Definition async_step (s : Async) (e : event) : Async :=
  match e with
  | Call key =>
      match localCache_enter (a_cache s) key with
      | AwaitGetter =>
          {| a_cache := a_cache s;
             invoked := invoked s ++ [key];
             pending := <[next_call s := key]> (pending s);
             returned := returned s;
             next_call := S (next_call s) |}
      | Return r =>
          {| a_cache := a_cache s;
             invoked := invoked s;
             pending := pending s;
             returned := <[next_call s := Ok r]> (returned s);
             next_call := S (next_call s) |}
      end
  | Settle c outcome =>
      match pending s !! c with
      | None => s
      | Some key =>
          let '(r, cache') := localCache_resume (a_cache s) key outcome in
          {| a_cache := cache';
             invoked := invoked s;
             pending := delete c (pending s);
             returned := <[c := r]> (returned s);
             next_call := next_call s |}
      end
  end.

Definition async_run (es : list event) (s : Async) : Async :=
  fold_left async_step es s.
End Cache.

Arguments Entered T : clear implicits.
Arguments World T : clear implicits.
Arguments Async T : clear implicits.
Arguments event T : clear implicits.
Arguments AwaitGetter {T}.
Arguments async_init {T}.

(** Every value that reaches the cache is a [SimpleResult] object, and an
    object is truthy. *)
Definition result_truthy (r : SimpleResult.t) : bool := true.

Section Dispatch.
Context (host : Host) (sdk : Sdk).
(** [JSON.stringify] on a request. *)
Context (stringify : QueryChartType.t → string).

Definition runChartQuery (type : QueryChartType.t)
  : World SimpleResult.t
    → Result (option SimpleResult.t) * World SimpleResult.t :=
  match QueryChartType.type type with
  | Values =>
      localCache result_truthy (stringify type)
        (getTopValues host sdk (QueryChartType.model type)
           (QueryChartType.explore type) (QueryChartType.field type))
  | Distribution =>
      localCache result_truthy (stringify type)
        (getDistribution host sdk (QueryChartType.model type)
           (QueryChartType.explore type) (QueryChartType.field type))
  end.
End Dispatch.

(** ** A host for running examples

    [sample_host] renders integer-valued numbers the way JavaScript does
    (with en-US digit grouping for [toLocaleString]) and reads back decimal
    integers; it is only used to evaluate the model on concrete inputs whose
    numbers are integers, or whose numbers are never printed. *)

Definition Z_of_float (x : float) : option Z :=
  match Prim2SF x with
  | S754_zero _ => Some 0%Z
  | S754_finite s m e =>
      if (0 <=? e)%Z then Some (cond_Zopp s (Zpos m * 2 ^ e))
      else if (Zpos m mod 2 ^ (- e) =? 0)%Z
           then Some (cond_Zopp s (Zpos m / 2 ^ (- e)))
           else None
  | _ => None
  end.

Definition decimal (z : Z) : string := NilZero.string_of_int (Z.to_int z).

Fixpoint group3 (ds : list Ascii.ascii) : list Ascii.ascii :=
  match ds with
  | a :: b :: c :: ((_ :: _) as rest) =>
      a :: b :: c :: Ascii.ascii_of_nat 44 :: group3 rest
  | _ => ds
  end.

Definition grouped (z : Z) : string :=
  let digits :=
    String.string_of_list_ascii
      (rev (group3 (rev (String.list_ascii_of_string (decimal (Z.abs z)))))) in
  if (z <? 0)%Z then "-" +:+ digits else digits.

Definition sample_host : Host :=
  {| numberToString x :=
       match Z_of_float x with Some z => decimal z | None => "#" end;
     stringToNumber s :=
       match NilZero.int_of_string s with
       | Some i =>
           let z := Z.of_int i in
           if (z <? 0)%Z then (- of_uint63 (Uint63.of_Z (- z)))%float
           else of_uint63 (Uint63.of_Z z)
       | None => nan
       end;
     numberToLocaleString x :=
       match Z_of_float x with Some z => grouped z | None => "#" end |}.

Definition mkCell (v : prim) : Cell.t :=
  {| Cell.links := None; Cell.rendered := None; Cell.value := v |}.

(** A two-row top-values scenario: field "Status" of view "Orders" with its
    companion count measure. *)
Definition status_field : Field.t :=
  {| Field.name := "orders.status"; Field.category := "dimension";
     Field.type := "string"; Field.label_short := "Status";
     Field.view_label := "Orders" |}.

Definition orders_count : Field.t :=
  {| Field.name := "orders.count"; Field.category := "measure";
     Field.type := "count"; Field.label_short := "Count";
     Field.view_label := "Orders" |}.

Definition products_count : Field.t :=
  {| Field.name := "products.count"; Field.category := "measure";
     Field.type := "count"; Field.label_short := "Count";
     Field.view_label := "Products" |}.

Definition price_field : Field.t :=
  {| Field.name := "orders.price"; Field.category := "dimension";
     Field.type := "number"; Field.label_short := "Price";
     Field.view_label := "Orders" |}.

Definition orders_explore : Explore.t :=
  {| Explore.name := "orders";
     Explore.measures := [products_count; orders_count] |}.

Definition shop_model : Model.t := {| Model.name := "shop" |}.

Definition status_row (status : string) (count : float) : gmap string Cell.t :=
  <["orders.status" := mkCell (JString status)]>
    (<["orders.count" := mkCell (JNumber count)]> ∅).

Definition status_response : Response.t :=
  {| Response.data := [status_row "Shipped" 120; status_row "Pending" 45];
     Response.totals_data :=
       Some (<["orders.count" := mkCell (JNumber 165)]> ∅) |}.

Definition status_sdk : Sdk := λ _ _, Ok status_response.

(** The same query answered with no rows at all. *)
Definition empty_response : Response.t :=
  {| Response.data := [];
     Response.totals_data :=
       Some (<["orders.count" := mkCell (JNumber 0)]> ∅) |}.

Definition empty_sdk : Sdk := λ _ _, Ok empty_response.

(** A distribution scenario: prices between 10 and 30, average 20; the
    per-bin query answers with rows for bins 0, 3 and 19 only. *)
Definition stats_row (min max average : prim) : gmap string Cell.t :=
  <["min" := mkCell min]>
    (<["max" := mkCell max]> (<["average" := mkCell average]> ∅)).

Definition bin_row (bin count : float) : gmap string Cell.t :=
  <["bin" := mkCell (JNumber bin)]>
    (<["orders.count" := mkCell (JNumber count)]> ∅).

Definition answer (rows : list (gmap string Cell.t)) : Result Response.t :=
  Ok {| Response.data := rows; Response.totals_data := None |}.

Definition price_sdk : Sdk :=
  λ log _,
    match log with
    | [] => answer [stats_row (JNumber 10) (JNumber 30) (JNumber 20)]
    | _ => answer [bin_row 0 7; bin_row 3 2; bin_row 19 1]
    end.

(** Prices whose minimum is zero. *)
Definition zero_min_sdk : Sdk :=
  λ _ _, answer [stats_row (JNumber 0) (JNumber 30) (JNumber 15)].




(** The queries a computation adds to the log all satisfy [P]. *)
Definition issues {A} (P : InlineQuery.t → Prop) (m : Q A) : Prop :=
  ∀ log, ∃ qs, (m log).2 = log ++ qs ∧ Forall P qs.

(** The bins of the histogram a run produced ([[]] when it produced none). *)
Definition histogram_of (run : Result SimpleResult.t * list InlineQuery.t)
  : list Bin.t :=
  match run.1 with
  | Ok r =>
      match SimpleResult.histogram r with
      | Some h => Histogram.data h
      | None => []
      end
  | Throw _ => []
  end.

Definition price_run : Result SimpleResult.t * list InlineQuery.t :=
  Eval vm_compute in
    getDistribution sample_host price_sdk shop_model orders_explore
      price_field [].


(** Cache scenarios. *)
Definition failing_sdk : Sdk := λ _ _, Throw (Rejected "network error").

Definition empty_world : World SimpleResult.t := {| cache := ∅; log := [] |}.

Definition sample_stringify (type : QueryChartType.t) : string :=
  Model.name (QueryChartType.model type) +:+ "/"
  +:+ Explore.name (QueryChartType.explore type) +:+ "/"
  +:+ Field.name (QueryChartType.field type) +:+ "/"
  +:+ match QueryChartType.type type with
      | Values => "Values"
      | Distribution => "Distribution"
      end.

Definition status_values : QueryChartType.t :=
  {| QueryChartType.model := shop_model;
     QueryChartType.explore := orders_explore;
     QueryChartType.field := status_field;
     QueryChartType.type := Values |}.

Definition status_distribution : QueryChartType.t :=
  {| QueryChartType.model := shop_model;
     QueryChartType.explore := orders_explore;
     QueryChartType.field := status_field;
     QueryChartType.type := Distribution |}.

(** A field of a view that has no count measure. *)
Definition users_name : Field.t :=
  {| Field.name := "users.name"; Field.category := "dimension";
     Field.type := "string"; Field.label_short := "Name";
     Field.view_label := "Users" |}.

Definition users_values : QueryChartType.t :=
  {| QueryChartType.model := shop_model;
     QueryChartType.explore := orders_explore;
     QueryChartType.field := users_name;
     QueryChartType.type := Values |}.

Definition caption_result (aux : string) : SimpleResult.t :=
  {| SimpleResult.align := [left; right]; SimpleResult.data := [];
     SimpleResult.max := [None; None]; SimpleResult.aux := Some aux;
     SimpleResult.histogram := None |}.

(** Two calls for the same key started before either getter settles. *)
Definition racing_calls : list (event SimpleResult.t) :=
  [Call "k"; Call "k";
   Settle 0 (Ok (caption_result "165 rows"));
   Settle 1 (Ok (caption_result "166 rows"))].

(** The result and the state after the first Status request. *)
Definition status_result : SimpleResult.t :=
  {| SimpleResult.align := [left; right];
     SimpleResult.data :=
       [ [ {| SimpleDatum.v := JString "Shipped"; SimpleDatum.l := None;
              SimpleDatum.n := None |};
           {| SimpleDatum.v := JString "120"; SimpleDatum.l := None;
              SimpleDatum.n := Some 120%float |} ];
         [ {| SimpleDatum.v := JString "Pending"; SimpleDatum.l := None;
              SimpleDatum.n := None |};
           {| SimpleDatum.v := JString "45"; SimpleDatum.l := None;
              SimpleDatum.n := Some 45%float |} ] ];
     SimpleResult.max := [None; Some 120%float];
     SimpleResult.aux := Some "165 rows";
     SimpleResult.histogram := None |}.

Definition status_world : World SimpleResult.t :=
  {| cache := <["k" := status_result]> ∅;
     log := [topValuesQuery shop_model orders_explore status_field
               "orders.count"] |}.

(** How often the getter was called for [key]; [quiet s key]: no call for
    [key] is suspended at its [await]. *)
Definition invocations (s : Async SimpleResult.t) (key : string) : nat :=
  length (filter (λ k, k = key) (invoked s)).

Definition quiet (s : Async SimpleResult.t) (key : string) : Prop :=
  ∀ c, pending s !! c ≠ Some key.


(** Further scenarios. *)

(** The successful result of a run ([caption_result ""] when it failed). *)
Definition result_of (run : Result SimpleResult.t * list InlineQuery.t)
  : SimpleResult.t :=
  match run.1 with Ok r => r | Throw _ => caption_result "" end.

(** The state after the first Status request made through
    [runChartQuery]. *)
Definition status_cached_world : World SimpleResult.t :=
  {| cache := <[sample_stringify status_values := status_result]> ∅;
     log := [topValuesQuery shop_model orders_explore status_field
               "orders.count"] |}.

(** An explore without any measure. *)
Definition users_explore : Explore.t :=
  {| Explore.name := "users"; Explore.measures := [] |}.


(** Two rows for the same bin, and a row whose bin is [null]. *)
Definition null_bin_row (count : float) : gmap string Cell.t :=
  <["bin" := mkCell JNull]>
    (<["orders.count" := mkCell (JNumber count)]> ∅).

Definition one_bin : list (prim * prim) := [(JNumber 10, JNumber 11)].

Definition one_bin_histogram : Histogram.t :=
  {| Histogram.data :=
       [ {| Bin.value := JNumber 7; Bin.min := JNumber 10;
            Bin.max := JNumber 11 |} ] |}.

(** Answers without grand totals, and with a count that is not a number. *)
Definition no_totals_response : Response.t :=
  {| Response.data := [status_row "Shipped" 120];
     Response.totals_data := None |}.

Definition no_totals_sdk : Sdk := λ _ _, Ok no_totals_response.

Definition text_count_response : Response.t :=
  {| Response.data :=
       [ <["orders.status" := mkCell (JString "Shipped")]>
           (<["orders.count" := mkCell (JString "many")]> ∅) ];
     Response.totals_data :=
       Some (<["orders.count" := mkCell (JNumber 165)]> ∅) |}.

Definition text_count_sdk : Sdk := λ _ _, Ok text_count_response.

Definition text_count_result : SimpleResult.t :=
  Eval vm_compute in
    result_of (getTopValues sample_host text_count_sdk shop_model
                 orders_explore status_field []).

(** * Verified properties *)

(** Proof steps shared by the proofs about the summarizers: expose the
    query monad, and split on the innermost [match] scrutinee. *)
Ltac unfold_Q := unfold qbind, qlift, qret, run_inline_query.

Ltac split_match :=
  match goal with
  | |- context [match ?x with _ => _ end] =>
      match x with
      | context [match _ with _ => _ end] => fail 1
      | _ => destruct x eqn:?; cbn [fst snd cell_value field_name]
      end
  end.

Ltac split_match_in H :=
  match type of H with
  | context [match ?x with _ => _ end] =>
      match x with
      | context [match _ with _ => _ end] => fail 1
      | _ => destruct x eqn:?; cbn [fst snd cell_value field_name] in H
      end
  end.

(** ** Result formatter *)

Example formatData_number :
  formatData sample_host (Some (mkCell (JNumber 120)))
  = Ok {| SimpleDatum.v := JString "120"; SimpleDatum.l := None;
          SimpleDatum.n := Some 120%float |}.
Proof. reflexivity. Qed.

Example formatData_string :
  formatData sample_host (Some (mkCell (JString "Shipped")))
  = Ok {| SimpleDatum.v := JString "Shipped"; SimpleDatum.l := None;
          SimpleDatum.n := None |}.
Proof. reflexivity. Qed.

Example formatData_rendered_link :
  formatData sample_host
    (Some {| Cell.links := Some [ {| Link.url := Some "/x" |};
                                  {| Link.url := Some "/y" |} ];
             Cell.rendered := Some "1,200";
             Cell.value := JNumber 1200 |})
  = Ok {| SimpleDatum.v := JString "1,200"; SimpleDatum.l := Some "/x";
          SimpleDatum.n := Some 1200%float |}.
Proof. reflexivity. Qed.

(** C7, counterexample: a cell whose pre-rendered string is present but
    empty.  [d.rendered || ...] treats the empty string as falsy, so [v] is
    the textual form of the value, here "null", not the pre-rendered
    string. *)
Lemma formatData_empty_rendered :
  formatData sample_host
    (Some {| Cell.links := None; Cell.rendered := Some "";
             Cell.value := JNull |})
  = Ok {| SimpleDatum.v := JString "null"; SimpleDatum.l := None;
          SimpleDatum.n := None |}
  ∧ JString "null" ≠ JString "".
Proof. split; [reflexivity | discriminate]. Qed.

Lemma truthy_string (s : string) : truthy (JString s) = negb (bool_decide (s = "")).
Proof. reflexivity. Qed.

(** C7 (amended): for every raw result cell, [formatData] returns a datum
    without throwing, also when the value is [null] or [undefined]; [l] is
    the first link's URL when there is a first link and absent otherwise;
    [v] is the pre-rendered string when it is present and not empty, and
    otherwise the value coerced to its textual form; [n] is the raw value
    exactly when the value's runtime type is number, and absent otherwise. *)
Theorem formatData_spec (host : Host) (c : Cell.t) :
  ∃ d, formatData host (Some c) = Ok d
    ∧ (∀ l0 rest, Cell.links c = Some (l0 :: rest)
         → SimpleDatum.l d = Link.url l0)
    ∧ (Cell.links c = None ∨ Cell.links c = Some []
         → SimpleDatum.l d = None)
    ∧ (∀ s, Cell.rendered c = Some s → s ≠ ""
         → SimpleDatum.v d = JString s)
    ∧ (Cell.rendered c = None ∨ Cell.rendered c = Some ""
         → SimpleDatum.v d = JString (to_string host (Cell.value c)))
    ∧ (∀ x, SimpleDatum.n d = Some x ↔ Cell.value c = JNumber x)
    ∧ (typeof_number (Cell.value c) = false → SimpleDatum.n d = None).
Proof.
  destruct c as [lk rd val]; eexists; split; [reflexivity|]; cbn.
  repeat split.
  - intros l0 rest ->; reflexivity.
  - intros [-> | ->]; reflexivity.
  - intros s -> Hs. unfold js_or. cbn [opt_string]. rewrite truthy_string.
    rewrite bool_decide_false by assumption. reflexivity.
  - intros [-> | ->]; reflexivity.
  - destruct val; congruence.
  - destruct val; congruence.
  - destruct val; cbn; congruence.
Qed.

(** ** Top-values summarizer *)

Lemma rmap_Forall2 {A B} (f : A → Result B) (xs : list A) :
  Forall (λ x, ∃ y, f x = Ok y) xs →
  ∃ ys, rmap f xs = Ok ys ∧ Forall2 (λ x y, f x = Ok y) xs ys.
Proof.
  induction 1 as [|x xs [y Hy] _ [ys [Hys HF]]]; cbn.
  - exists []. split; [reflexivity | constructor].
  - exists (y :: ys). rewrite Hy; cbn. rewrite Hys; cbn.
    split; [reflexivity | constructor; assumption].
Qed.

Lemma countFieldForField_sample :
  countFieldForField orders_explore status_field = Some orders_count.
Proof. reflexivity. Qed.

Example getTopValues_status :
  getTopValues sample_host status_sdk shop_model orders_explore status_field []
  = (Ok {| SimpleResult.align := [left; right];
           SimpleResult.data :=
             [ [ {| SimpleDatum.v := JString "Shipped"; SimpleDatum.l := None;
                    SimpleDatum.n := None |};
                 {| SimpleDatum.v := JString "120"; SimpleDatum.l := None;
                    SimpleDatum.n := Some 120%float |} ];
               [ {| SimpleDatum.v := JString "Pending"; SimpleDatum.l := None;
                    SimpleDatum.n := None |};
                 {| SimpleDatum.v := JString "45"; SimpleDatum.l := None;
                    SimpleDatum.n := Some 45%float |} ] ];
           SimpleResult.max := [None; Some 120%float];
           SimpleResult.aux := Some "165 rows";
           SimpleResult.histogram := None |},
     [topValuesQuery shop_model orders_explore status_field "orders.count"]).
Proof. vm_compute. reflexivity. Qed.

Lemma formatData_Some (host : Host) (c : Cell.t) :
  ∃ d, formatData host (Some c) = Ok d
       ∧ SimpleDatum.n d
         = match Cell.value c with JNumber x => Some x | _ => None end.
Proof. eexists; split; reflexivity. Qed.

(** C2: when the top-values query returns at least one row (each row
    carrying the field cell and the count cell, the counts and the grand
    total being numbers), the result has alignment [left; right], one grid
    row [formatted field cell; formatted count cell] per returned row, in
    order, per-column max [absent; count of the first row], the caption
    made of the localised grand total followed by " rows", and no
    histogram; exactly one query was sent. *)
Theorem getTopValues_rows
    (host : Host) (sdk : Sdk) (model : Model.t) (explore : Explore.t)
    (field countField : Field.t) (log : list InlineQuery.t)
    (qr : Response.t) (row0 : gmap string Cell.t)
    (rows : list (gmap string Cell.t)) (totals : gmap string Cell.t)
    (count0 total : float) (cell0 totalCell : Cell.t) :
  countFieldForField explore field = Some countField →
  sdk log (topValuesQuery model explore field (Field.name countField)) = Ok qr →
  Response.data qr = row0 :: rows →
  Forall (λ row : gmap string Cell.t,
            is_Some (row !! Field.name field)
            ∧ is_Some (row !! Field.name countField)) (row0 :: rows) →
  row0 !! Field.name countField = Some cell0 →
  Cell.value cell0 = JNumber count0 →
  Response.totals_data qr = Some totals →
  totals !! Field.name countField = Some totalCell →
  Cell.value totalCell = JNumber total →
  ∃ data,
    getTopValues host sdk model explore field log
    = (Ok {| SimpleResult.align := [left; right];
             SimpleResult.data := data;
             SimpleResult.max := [None; Some count0];
             SimpleResult.aux :=
               Some (numberToLocaleString host total +:+ " rows");
             SimpleResult.histogram := None |},
       log ++ [topValuesQuery model explore field (Field.name countField)])
    ∧ Forall2 (λ (row : gmap string Cell.t) cells,
        ∃ a b, formatData host (row !! Field.name field) = Ok a
             ∧ formatData host (row !! Field.name countField) = Ok b
             ∧ cells = [a; b]) (row0 :: rows) data.
Proof.
  intros Hcf Hsdk Hdata Hcells Hc0 Hv0 Htot Htc Htv.
  set (fmt := λ row : gmap string Cell.t,
         try! a := formatData host (row !! Field.name field) in
         try! b := formatData host (row !! Field.name countField) in
         Ok [a; b]).
  assert (Hall : Forall (λ x, ∃ y, fmt x = Ok y) (row0 :: rows)).
  { eapply Forall_impl; [exact Hcells|].
    intros row [[c1 H1] [c2 H2]]. unfold fmt. rewrite H1, H2.
    eexists; reflexivity. }
  destruct (rmap_Forall2 fmt _ Hall) as [data [Hrmap HF2]].
  exists data. split.
  - unfold getTopValues; unfold_Q.
    rewrite Hcf; cbn [field_name]. rewrite Hsdk, Hdata.
    fold fmt. rewrite Hrmap.
    inversion HF2 as [|? d0 ? ds Hd0 _]; subst.
    unfold fmt in Hd0. rewrite Hc0 in Hd0.
    destruct (formatData host (row0 !! Field.name field)) as [a|] eqn:Ha;
      [|discriminate].
    cbn in Hd0. injection Hd0 as <-.
    cbn. rewrite Hv0, Htot. cbn. rewrite Htc. cbn. rewrite Htv. cbn.
    reflexivity.
  - eapply Forall2_impl; [exact HF2|].
    intros row cells Hrow. unfold fmt in Hrow.
    destruct (formatData host (row !! Field.name field)) as [a|]; [|discriminate].
    destruct (formatData host (row !! Field.name countField)) as [b|];
      [|discriminate].
    cbn in Hrow. injection Hrow as <-. eauto.
Qed.

Lemma getTopValues_rows_witness :
  ∃ data,
    getTopValues sample_host status_sdk shop_model orders_explore status_field []
    = (Ok {| SimpleResult.align := [left; right];
             SimpleResult.data := data;
             SimpleResult.max := [None; Some 120%float];
             SimpleResult.aux := Some ("165" +:+ " rows");
             SimpleResult.histogram := None |},
       [] ++ [topValuesQuery shop_model orders_explore status_field
                "orders.count"])
    ∧ Forall2 (λ (row : gmap string Cell.t) cells,
        ∃ a b, formatData sample_host (row !! "orders.status") = Ok a
             ∧ formatData sample_host (row !! "orders.count") = Ok b
             ∧ cells = [a; b])
        [status_row "Shipped" 120; status_row "Pending" 45] data.
Proof.
  apply (getTopValues_rows sample_host status_sdk shop_model orders_explore
           status_field orders_count [] status_response
           (status_row "Shipped" 120) [status_row "Pending" 45]
           (<["orders.count" := mkCell (JNumber 165)]> ∅)
           120%float 165%float (mkCell (JNumber 120)) (mkCell (JNumber 165))).
  - reflexivity.
  - reflexivity.
  - reflexivity.
  - repeat constructor; vm_compute; eauto.
  - vm_compute; reflexivity.
  - reflexivity.
  - reflexivity.
  - vm_compute; reflexivity.
  - reflexivity.
Defined.

(** C8, evaluated on the failing input: the query answers with no rows
    (and a zero grand total).  [data[0]] is [undefined], and the access
    [data[0][1]] made while building [max] throws a [TypeError]; nothing
    guards it. *)
Theorem getTopValues_no_rows :
  getTopValues sample_host empty_sdk shop_model orders_explore status_field []
  = (Throw (TypeError "1"),
     [topValuesQuery shop_model orders_explore status_field "orders.count"]).
Proof. vm_compute. reflexivity. Qed.

(** The same on every empty answer. *)
Lemma getTopValues_empty_throws
    (host : Host) (sdk : Sdk) (model : Model.t) (explore : Explore.t)
    (field countField : Field.t) (log : list InlineQuery.t) (qr : Response.t) :
  countFieldForField explore field = Some countField →
  sdk log (topValuesQuery model explore field (Field.name countField)) = Ok qr →
  Response.data qr = [] →
  getTopValues host sdk model explore field log
  = (Throw (TypeError "1"),
     log ++ [topValuesQuery model explore field (Field.name countField)]).
Proof.
  intros Hcf Hsdk Hdata.
  unfold getTopValues; unfold_Q.
  rewrite Hcf; cbn [field_name]. rewrite Hsdk, Hdata. reflexivity.
Qed.

(** ** Distribution summarizer *)

Example getDistribution_price :
  ∃ h, getDistribution sample_host price_sdk shop_model orders_explore
         price_field []
  = (Ok {| SimpleResult.align := [left; right];
           SimpleResult.histogram := Some h;
           SimpleResult.data :=
             [labelled "Min" (JString "10"); labelled "Max" (JString "30");
              labelled "Average" (JString "20")];
           SimpleResult.max := [None; None];
           SimpleResult.aux := None |},
     [statsQuery shop_model orders_explore price_field;
      histogramQuery shop_model orders_explore "orders.count"
        (binExpressionOf sample_host price_field
           (binsOf sample_host (JNumber 10) (JNumber 30)))])
  ∧ map (λ b, (Bin.value b, Bin.min b, Bin.max b)) (Histogram.data h)
    = [(JNumber 7, JNumber 10, JNumber 11); (JNumber 0, JNumber 11, JNumber 12);
       (JNumber 0, JNumber 12, JNumber 13); (JNumber 2, JNumber 13, JNumber 14);
       (JNumber 0, JNumber 14, JNumber 15); (JNumber 0, JNumber 15, JNumber 16);
       (JNumber 0, JNumber 16, JNumber 17); (JNumber 0, JNumber 17, JNumber 18);
       (JNumber 0, JNumber 18, JNumber 19); (JNumber 0, JNumber 19, JNumber 20);
       (JNumber 0, JNumber 20, JNumber 21); (JNumber 0, JNumber 21, JNumber 22);
       (JNumber 0, JNumber 22, JNumber 23); (JNumber 0, JNumber 23, JNumber 24);
       (JNumber 0, JNumber 24, JNumber 25); (JNumber 0, JNumber 25, JNumber 26);
       (JNumber 0, JNumber 26, JNumber 27); (JNumber 0, JNumber 27, JNumber 28);
       (JNumber 0, JNumber 28, JNumber 29); (JNumber 1, JNumber 29, JNumber 30)].
Proof. eexists. split; vm_compute; reflexivity. Qed.

Example binExpression_price :
  binExpressionOf sample_host price_field
    [(JNumber 10, JNumber 11); (JNumber 11, JNumber 12)]
  = "coalesce(if(${orders.price} <= 11, 0, null)," +:+ newline
      +:+ "if(${orders.price} <= 12, 1, null))".
Proof. vm_compute. reflexivity. Qed.




Example getDistribution_zero_min :
  getDistribution sample_host zero_min_sdk shop_model orders_explore
    price_field []
  = (Ok {| SimpleResult.align := [left; right];
           SimpleResult.histogram := None;
           SimpleResult.data :=
             [labelled "Min" (JNumber 0); labelled "Max" (JString "30");
              labelled "Average" (JString "15")];
           SimpleResult.max := [None; None];
           SimpleResult.aux := None |},
     [statsQuery shop_model orders_explore price_field]).
Proof. vm_compute. reflexivity. Qed.

(** *** Bookkeeping of the queries sent *)

Lemma issues_qret {A} P (a : A) : issues P (qret a).
Proof. intros log. exists []. rewrite app_nil_r. split; [reflexivity | constructor]. Qed.

Lemma issues_qlift {A} P (r : Result A) : issues P (qlift r).
Proof. intros log. exists []. rewrite app_nil_r. split; [reflexivity | constructor]. Qed.

Lemma issues_run P sdk q : P q → issues P (run_inline_query sdk q).
Proof. intros HP log. exists [q]. split; [reflexivity | repeat constructor; assumption]. Qed.

Lemma issues_qbind {A B} P (m : Q A) (k : A → Q B) :
  issues P m → (∀ a, issues P (k a)) → issues P (qbind m k).
Proof.
  intros Hm Hk log. unfold qbind.
  destruct (Hm log) as [qs [Hlog HP]].
  destruct (m log) as [[a|e] log1]; cbn in Hlog; subst log1.
  - destruct (Hk a (log ++ qs)) as [qs' [Hlog' HP']].
    exists (qs ++ qs'). rewrite Hlog', app_assoc. split; [reflexivity|].
    apply Forall_app; split; assumption.
  - exists qs. split; [reflexivity | assumption].
Qed.

Lemma getDistribution_issues host sdk model explore field :
  issues (λ q, InlineQuery.limit q = 10%Z) (getDistribution host sdk model explore field).
Proof.
  unfold getDistribution.
  repeat first
    [ apply issues_qret | apply issues_qlift
    | apply issues_run; reflexivity
    | apply issues_qbind; [|intros ?]
    | match goal with |- issues _ (if ?b then _ else _) => destruct b end ].
Qed.

(** *** How a histogram comes about *)

Lemma getDistribution_histogram_inv
    (host : Host) (sdk : Sdk) (model : Model.t) (explore : Explore.t)
    (field : Field.t) (log log' : list InlineQuery.t) (r : SimpleResult.t)
    (h : Histogram.t) :
  getDistribution host sdk model explore field log = (Ok r, log') →
  SimpleResult.histogram r = Some h →
  ∃ qr row0 min max countField qr2,
    sdk log (statsQuery model explore field) = Ok qr
    ∧ Response.data qr !! 0%nat = Some row0
    ∧ row0 !! "min" = Some min
    ∧ row0 !! "max" = Some max
    ∧ truthy (Cell.value min) = true
    ∧ countFieldForField explore field = Some countField
    ∧ sdk (log ++ [statsQuery model explore field])
        (histogramQuery model explore (Field.name countField)
           (binExpressionOf host field
              (binsOf host (Cell.value min) (Cell.value max)))) = Ok qr2
    ∧ histogramOf host (Response.data qr2) (Field.name countField)
        (binsOf host (Cell.value min) (Cell.value max)) = Ok h
    ∧ log' = log ++ [statsQuery model explore field;
                     histogramQuery model explore (Field.name countField)
                       (binExpressionOf host field
                          (binsOf host (Cell.value min) (Cell.value max)))].
Proof.
  unfold getDistribution; unfold_Q.
  intros Hrun Hh.
  destruct (sdk log (statsQuery model explore field)) as [qr|] eqn:Hsdk;
    [|discriminate].
  destruct (Response.data qr !! 0%nat) as [row0|] eqn:Hrow; [|discriminate].
  destruct (row0 !! "max") as [max|] eqn:Hmax; [|discriminate].
  destruct (row0 !! "min") as [min|] eqn:Hmin; [|discriminate].
  cbn [cell_value] in Hrun.
  destruct (truthy (Cell.value min)) eqn:Ht.
  - destruct (countFieldForField explore field) as [cf|] eqn:Hcf;
      [|discriminate].
    cbn [field_name] in Hrun.
    match type of Hrun with context [sdk ?l ?q] =>
      destruct (sdk l q) as [qr2|] eqn:Hsdk2; [|discriminate] end.
    match type of Hrun with context [histogramOf ?a ?b ?c ?d] =>
      destruct (histogramOf a b c d) as [h'|] eqn:Hh'; [|discriminate] end.
    destruct (and_toLocaleString host (Cell.value min)); [|discriminate].
    destruct (and_toLocaleString host (Cell.value max)); [|discriminate].
    destruct (cell_value (row0 !! "average")); [|discriminate].
    cbn in Hrun.
    destruct (and_toLocaleString host a1); [|discriminate].
    injection Hrun as <- <-. cbn in Hh. injection Hh as ->.
    exists qr, row0, min, max, cf, qr2.
    rewrite <- app_assoc. repeat split; assumption.
  - destruct (and_toLocaleString host (Cell.value min)); [|discriminate].
    destruct (and_toLocaleString host (Cell.value max)); [|discriminate].
    destruct (cell_value (row0 !! "average")); [|discriminate].
    cbn in Hrun.
    destruct (and_toLocaleString host a1); [|discriminate].
    injection Hrun as <- <-. discriminate.
Qed.

Lemma rimap_from_lookup {A B} (f : nat → A → Result B) (xs : list A) :
  ∀ k ys, rimap_from k f xs = Ok ys →
    length ys = length xs
    ∧ ∀ i y, ys !! i = Some y → ∃ x, xs !! i = Some x ∧ f (k + i) x = Ok y.
Proof.
  induction xs as [|x xs IH]; intros k ys Hrun; cbn in Hrun.
  - injection Hrun as <-. split; [reflexivity|]. intros i y Hi. discriminate.
  - destruct (f k x) as [y0|] eqn:Hy0; [|discriminate]. cbn in Hrun.
    destruct (rimap_from (S k) f xs) as [ys0|] eqn:Hys0; [|discriminate].
    cbn in Hrun. injection Hrun as <-.
    destruct (IH _ _ Hys0) as [Hlen Hlook].
    split; [cbn; congruence|].
    intros [|i] y Hi; cbn in Hi.
    + injection Hi as <-. exists x. rewrite Nat.add_0_r. split; [reflexivity | assumption].
    + destruct (Hlook _ _ Hi) as [x' [Hx' Hf]]. exists x'.
      split; [assumption|]. rewrite <- Nat.add_succ_comm. assumption.
Qed.

Lemma map_seq_lookup {B} (f : nat → B) (n : nat) :
  ∀ s i y, map f (seq s n) !! i = Some y → i < n ∧ y = f (s + i).
Proof.
  induction n as [|n IH]; intros s i y Hi; cbn in Hi; [discriminate|].
  destruct i as [|i]; cbn in Hi.
  - injection Hi as <-. rewrite Nat.add_0_r. split; [lia | reflexivity].
  - destruct (IH _ _ _ Hi) as [Hlt ->]. split; [lia|].
    f_equal. lia.
Qed.


Lemma rfilter_none {A} (f : A → Result bool) (xs ys : list A) :
  rfilter f xs = Ok ys → Forall (λ x, f x = Ok true → False) xs → ys = [].
Proof.
  revert ys. induction xs as [|x xs IH]; intros ys Hrun Hall; cbn in Hrun.
  - congruence.
  - inversion Hall as [|? ? Hx Hxs]; subst.
    destruct (f x) as [[|]|] eqn:Hfx; [exfalso; auto| |discriminate].
    cbn in Hrun. destruct (rfilter f xs) as [ys0|]; [|discriminate].
    cbn in Hrun. injection Hrun as <-. apply IH; [reflexivity | assumption].
Qed.















Lemma binDatum_no_row (host : Host) (rows : list (gmap string Cell.t))
    (countName : string) (i : nat) (bd : prim * prim) (b : Bin.t) :
  binDatum host rows countName i bd = Ok b →
  Forall (λ row : gmap string Cell.t,
            ∀ c, row !! "bin" = Some c →
                 loose_eq_number host (Cell.value c) (num_of_nat i) = false)
         rows →
  Bin.value b = JNumber 0.
Proof.
  unfold binDatum, rowsOfBin. intros Hrun Hnone.
  destruct (rfilter _ rows) as [matching|] eqn:Hf; [|discriminate].
  apply rfilter_none in Hf.
  - subst matching. cbn in Hrun. injection Hrun as <-. reflexivity.
  - eapply Forall_impl; [exact Hnone|].
    intros row Hrow Heq. cbn beta in Hrow.
    destruct (row !! "bin") as [c|] eqn:Hc; [|discriminate].
    cbn [rbind cell_value] in Heq. rewrite (Hrow c eq_refl) in Heq.
    discriminate.
Qed.

(** C10: every query [getDistribution] sends carries the row limit 10,
    the stats query as well as the per-bin count query (whose first field
    is the derived dimension "bin"); 20 bins are assembled all the same,
    and every bin index that no returned row matches is given the count
    0. *)
Theorem getDistribution_limit_10
    (host : Host) (sdk : Sdk) (model : Model.t) (explore : Explore.t)
    (field : Field.t) (log : list InlineQuery.t) :
  (∃ qs, (getDistribution host sdk model explore field log).2 = log ++ qs
         ∧ Forall (λ q, InlineQuery.limit q = 10%Z) qs)
  ∧ ∀ r log' h,
      getDistribution host sdk model explore field log = (Ok r, log') →
      SimpleResult.histogram r = Some h →
      ∃ q2 qr2,
        log' = log ++ [statsQuery model explore field; q2]
        ∧ InlineQuery.limit (statsQuery model explore field) = 10%Z
        ∧ InlineQuery.limit q2 = 10%Z
        ∧ Body.fields (InlineQuery.body q2) !! 0%nat = Some "bin"
        ∧ sdk (log ++ [statsQuery model explore field]) q2 = Ok qr2
        ∧ length (Histogram.data h) = 20
        ∧ ∀ i b, Histogram.data h !! i = Some b →
            Forall (λ row : gmap string Cell.t,
                      ∀ c, row !! "bin" = Some c →
                           loose_eq_number host (Cell.value c) (num_of_nat i)
                           = false)
                   (Response.data qr2) →
            Bin.value b = JNumber 0.
Proof.
  split; [apply getDistribution_issues|].
  intros r log' h Hrun Hh.
  destruct (getDistribution_histogram_inv _ _ _ _ _ _ _ _ _ Hrun Hh)
    as (qr & row0 & min & max & cf & qr2 & _ & _ & _ & _ & _ & _ & Hsdk2
        & Hhist & Hlog).
  eexists _, qr2. split; [exact Hlog|].
  split; [reflexivity|]. split; [reflexivity|]. split; [reflexivity|].
  split; [exact Hsdk2|].
  unfold histogramOf in Hhist.
  destruct (rimap_from 0 _ _) as [data|] eqn:Hdata; [|discriminate].
  cbn in Hhist. injection Hhist as <-. cbn [Histogram.data].
  destruct (rimap_from_lookup _ _ _ _ Hdata) as [Hlen Hlook].
  split.
  - rewrite Hlen. unfold binsOf. rewrite length_map, length_seq. reflexivity.
  - intros i b Hb Hnone. destruct (Hlook _ _ Hb) as [bd [_ Hf]].
    eapply binDatum_no_row; eassumption.
Qed.

Lemma getDistribution_limit_10_witness :
  (price_run.2 = [] ++ price_run.2
   ∧ Forall (λ q, InlineQuery.limit q = 10%Z) price_run.2)
  ∧ Bin.value <$> histogram_of price_run !! 1%nat = Some (JNumber 0).
Proof.
  destruct (getDistribution_limit_10 sample_host price_sdk shop_model
              orders_explore price_field []) as [[qs [Hqs Hall]] Hzero].
  change (getDistribution sample_host price_sdk shop_model
              orders_explore price_field []) with price_run in Hqs.
  cbn [app] in Hqs. rewrite <- Hqs in Hall.
  split; [split; [reflexivity | exact Hall]|].
  destruct (histogram_of price_run !! 1%nat) as [b|] eqn:Hb; [|discriminate].
  cbn. f_equal.
  destruct (Hzero (match price_run.1 with Ok r => r | Throw _ =>
              {| SimpleResult.align := []; SimpleResult.data := [];
                 SimpleResult.max := []; SimpleResult.aux := None;
                 SimpleResult.histogram := None |} end)
            price_run.2 {| Histogram.data := histogram_of price_run |}
            eq_refl eq_refl)
    as (q2 & qr2 & Hlog & _ & _ & _ & Hsdk & _ & Hbins).
  apply (Hbins 1%nat b Hb).
  assert (Hq : qr2 = {| Response.data := [bin_row 0 7; bin_row 3 2; bin_row 19 1];
                        Response.totals_data := None |}).
  { cbn in Hsdk. injection Hsdk as <-. reflexivity. }
  subst qr2. cbn [Response.data].
  repeat constructor; intros c Hc; vm_compute in Hc; injection Hc as <-;
    vm_compute; reflexivity.
Defined.

(** ** Shape of every result *)

Lemma rmap_Forall {A B} (f : A → Result B) (P : B → Prop) (xs : list A) :
  (∀ x y, f x = Ok y → P y) →
  ∀ ys, rmap f xs = Ok ys → Forall P ys.
Proof.
  intros HP. induction xs as [|x xs IH]; intros ys Hrun; cbn in Hrun.
  - injection Hrun as <-. constructor.
  - destruct (f x) as [y|] eqn:Hy; [|discriminate]. cbn in Hrun.
    destruct (rmap f xs) as [ys0|]; [|discriminate]. cbn in Hrun.
    injection Hrun as <-. constructor; [eapply HP; exact Hy | apply IH; reflexivity].
Qed.

(** X1, rectangular grid: in every result of either summarizer, each row of
    the grid has as many cells as there are column alignments. *)
Theorem grid_rectangular
    (host : Host) (sdk : Sdk) (model : Model.t) (explore : Explore.t)
    (field : Field.t) (log log' : list InlineQuery.t) (r : SimpleResult.t) :
  getTopValues host sdk model explore field log = (Ok r, log')
  ∨ getDistribution host sdk model explore field log = (Ok r, log') →
  Forall (λ row, length row = length (SimpleResult.align r))
         (SimpleResult.data r).
Proof.
  intros [Hrun|Hrun].
  - unfold getTopValues, qbind, qlift, qret, run_inline_query in Hrun.
    destruct (field_name _) as [cn|]; [|discriminate].
    destruct (sdk log _) as [qr|]; [|discriminate].
    destruct (rmap _ (Response.data qr)) as [data|] eqn:Hdata; [|discriminate].
    destruct (first_count data); [|discriminate].
    destruct (totals_value _ _); [|discriminate].
    destruct (toLocaleString host _); [|discriminate].
    injection Hrun as <- <-. cbn.
    eapply rmap_Forall; [|exact Hdata].
    intros row cells Hc. cbn beta in Hc.
    destruct (formatData host (row !! Field.name field)); [|discriminate].
    destruct (formatData host (row !! cn)); [|discriminate].
    cbn in Hc. injection Hc as <-. reflexivity.
  - unfold getDistribution, qbind, qlift, qret, run_inline_query in Hrun.
    repeat split_match_in Hrun; try discriminate;
      injection Hrun as <- <-; cbn; repeat constructor.
Qed.

Lemma grid_rectangular_witness :
  Forall (λ row, length row = length (SimpleResult.align status_result))
         (SimpleResult.data status_result).
Proof.
  apply (grid_rectangular sample_host status_sdk shop_model orders_explore
           status_field []
           [topValuesQuery shop_model orders_explore status_field
              "orders.count"]
           status_result).
  left. vm_compute. reflexivity.
Defined.

(** ** Field capability classifier *)

Lemma head_filter_first {A} (P : A → Prop) `{∀ x, Decision (P x)}
    (l : list A) (x : A) :
  head (filter P l) = Some x →
  ∃ l1 l2, l = l1 ++ x :: l2 ∧ Forall (λ y, ¬ P y) l1 ∧ P x.
Proof.
  induction l as [|a l IH]; [discriminate|].
  destruct (decide (P a)) as [Ha|Ha].
  - rewrite filter_cons_True by exact Ha. cbn. intros [= ->].
    exists [], l. split; [reflexivity|]. split; [constructor | exact Ha].
  - rewrite filter_cons_False by exact Ha. intros Hx.
    destruct (IH Hx) as (l1 & l2 & -> & Hl1 & Hp).
    exists (a :: l1), l2. split; [reflexivity|].
    split; [constructor; assumption | exact Hp].
Qed.

(** X2: the companion count field is the first measure of the explore
    with short label "Count" and the field's view label, and there is none
    exactly when no measure qualifies; top values can be computed exactly
    for dimensions with such a measure, distributions exactly for
    number-typed dimensions. *)
Theorem countFieldForField_spec (explore : Explore.t) (field : Field.t) :
  (∀ f, countFieldForField explore field = Some f →
        ∃ before after,
          Explore.measures explore = before ++ f :: after
          ∧ Forall (λ g, ¬ (Field.label_short g = "Count"
                            ∧ Field.view_label g = Field.view_label field))
                   before
          ∧ Field.label_short f = "Count"
          ∧ Field.view_label f = Field.view_label field)
  ∧ (countFieldForField explore field = None ↔
     ∀ f, f ∈ Explore.measures explore →
          ¬ (Field.label_short f = "Count"
             ∧ Field.view_label f = Field.view_label field))
  ∧ (canGetTopValues explore field = true ↔
     Field.category field = "dimension"
     ∧ ∃ f, f ∈ Explore.measures explore
            ∧ Field.label_short f = "Count"
            ∧ Field.view_label f = Field.view_label field)
  ∧ (canGetDistribution field = true ↔
     Field.type field = "number" ∧ Field.category field = "dimension").
Proof.
  unfold canGetTopValues, canGetDistribution, countFieldForField.
  set (P := λ f : Field.t, Field.label_short f = "Count"
                           ∧ Field.view_label f = Field.view_label field).
  assert (Hsome : ∀ f, head (filter P (Explore.measures explore)) = Some f →
                       f ∈ Explore.measures explore ∧ P f).
  { intros f Hf. apply head_Some_elem_of in Hf.
    apply list_elem_of_filter in Hf. tauto. }
  assert (Hnone : head (filter P (Explore.measures explore)) = None ↔
                  ∀ f, f ∈ Explore.measures explore → ¬ P f).
  { split.
    - intros Hn f Hin HP.
      assert (Hf : f ∈ filter P (Explore.measures explore))
        by (apply list_elem_of_filter; tauto).
      destruct (filter P (Explore.measures explore)); [|discriminate].
      inversion Hf.
    - intros Hall.
      destruct (filter P (Explore.measures explore)) as [|f l] eqn:Hfl;
        [reflexivity|].
      assert (Hf : f ∈ filter P (Explore.measures explore))
        by (rewrite Hfl; left).
      apply list_elem_of_filter in Hf. exfalso. apply (Hall f); tauto. }
  subst P. cbn beta in Hsome, Hnone.
  split; [intros f Hf; apply head_filter_first in Hf; exact Hf|].
  split; [exact Hnone|]. split.
  - rewrite andb_true_iff, !bool_decide_eq_true. split.
    + intros [Hc [f Hf]]. split; [exact Hc|]. exists f.
      apply Hsome in Hf. tauto.
    + intros [Hc [f [Hin HP]]]. split; [exact Hc|].
      destruct (head (filter _ (Explore.measures explore))) as [g|] eqn:Hg;
        [eexists; reflexivity|].
      exfalso. apply (proj1 Hnone eq_refl f Hin). exact HP.
  - rewrite andb_true_iff, !bool_decide_eq_true. tauto.
Qed.

Example companion_count_orders :
  countFieldForField orders_explore status_field = Some orders_count
  ∧ canGetTopValues orders_explore status_field = true
  ∧ countFieldForField orders_explore users_name = None
  ∧ canGetTopValues orders_explore users_name = false.
Proof. repeat split. Qed.

(** ** Memoization cache *)

Lemma localCache_hit (key : string) (getter : Q SimpleResult.t)
    (w : World SimpleResult.t) (v : SimpleResult.t) :
  cache w !! key = Some v →
  localCache result_truthy key getter w = (Ok (Some v), w).
Proof.
  intros Hv. unfold localCache, localCache_enter, cache_miss.
  rewrite Hv. reflexivity.
Qed.

Lemma localCache_miss (key : string) (getter : Q SimpleResult.t)
    (w : World SimpleResult.t) :
  cache w !! key = None →
  localCache result_truthy key getter w
  = match getter (log w) with
    | (Ok v, log') =>
        (Ok (Some v), {| cache := <[key := v]> (cache w); log := log' |})
    | (Throw e, log') => (Throw e, {| cache := cache w; log := log' |})
    end.
Proof.
  intros Hv. unfold localCache, localCache_enter, cache_miss.
  rewrite Hv. destruct (getter (log w)) as [[v|e] log']; cbn.
  - rewrite lookup_insert_eq. reflexivity.
  - reflexivity.
Qed.

(** *** Calls in flight together: what stays stable *)

Lemma async_call_absent (s : Async SimpleResult.t) (key : string) :
  a_cache s !! key = None →
  async_step result_truthy s (Call key)
  = {| a_cache := a_cache s;
       invoked := invoked s ++ [key];
       pending := <[next_call s := key]> (pending s);
       returned := returned s;
       next_call := S (next_call s) |}.
Proof.
  intros H. unfold async_step, localCache_enter, cache_miss. rewrite H.
  reflexivity.
Qed.

Lemma async_call_present (s : Async SimpleResult.t) (key : string)
    (v : SimpleResult.t) :
  a_cache s !! key = Some v →
  async_step result_truthy s (Call key)
  = {| a_cache := a_cache s;
       invoked := invoked s;
       pending := pending s;
       returned := <[next_call s := Ok (Some v)]> (returned s);
       next_call := S (next_call s) |}.
Proof.
  intros H. unfold async_step, localCache_enter, cache_miss. rewrite H.
  reflexivity.
Qed.

Lemma async_step_stable (s : Async SimpleResult.t) (key : string)
    (v : SimpleResult.t) (e : event SimpleResult.t) :
  a_cache s !! key = Some v → quiet s key →
  a_cache (async_step result_truthy s e) !! key = Some v
  ∧ quiet (async_step result_truthy s e) key
  ∧ invocations (async_step result_truthy s e) key = invocations s key.
Proof.
  intros Hv Hq. unfold quiet, invocations. destruct e as [k|c out].
  - destruct (decide (k = key)) as [->|Hne].
    + rewrite (async_call_present _ _ _ Hv).
      cbn [a_cache pending invoked]. auto.
    + unfold async_step, localCache_enter.
      destruct (cache_miss result_truthy (a_cache s) k);
        cbn [a_cache pending invoked]; [|auto].
      split; [exact Hv|]. split.
      * intros c. destruct (decide (c = next_call s)) as [->|Hc].
        -- rewrite lookup_insert_eq. congruence.
        -- rewrite lookup_insert_ne by congruence. apply Hq.
      * rewrite filter_app, length_app.
        rewrite filter_cons_False by exact Hne. cbn. lia.
  - unfold async_step. destruct (pending s !! c) as [k|] eqn:Hk; [|auto].
    assert (Hne : k ≠ key) by (intros ->; exact (Hq c Hk)).
    assert (Hdel : ∀ c', delete c (pending s) !! c' ≠ Some key).
    { intros c'. destruct (decide (c' = c)) as [->|Hc].
      - rewrite lookup_delete_eq. discriminate.
      - rewrite lookup_delete_ne by congruence. apply Hq. }
    destruct out as [v'|e']; cbn [localCache_resume a_cache pending invoked].
    + split; [rewrite lookup_insert_ne by exact Hne; exact Hv|]. auto.
    + auto.
Qed.

Lemma async_run_stable (es : list (event SimpleResult.t)) :
  ∀ (s : Async SimpleResult.t) (key : string) (v : SimpleResult.t),
    a_cache s !! key = Some v → quiet s key →
    a_cache (async_run result_truthy es s) !! key = Some v
    ∧ quiet (async_run result_truthy es s) key
    ∧ invocations (async_run result_truthy es s) key = invocations s key.
Proof.
  induction es as [|e es IH]; intros s key v Hv Hq.
  - cbn. auto.
  - change (async_run result_truthy (e :: es) s)
      with (async_run result_truthy es (async_step result_truthy s e)).
    destruct (async_step_stable s key v e Hv Hq) as (Hv' & Hq' & Hc').
    destruct (IH _ key v Hv' Hq') as (Hv'' & Hq'' & Hc'').
    split; [exact Hv''|]. split; [exact Hq''|]. rewrite Hc''. exact Hc'.
Qed.

(** C3: for every key, [localCache] runs the computation and stores its
    result exactly when no entry exists for the key; when an entry exists
    it returns that stored entry whatever the computation is, leaving the
    cache and the query log untouched; so once a call for a key has
    resolved successfully, every later call for the key returns the same
    stored result and runs nothing.  With other calls interleaved: once a
    result is stored for the key and no computation for it is in flight,
    the entry stays and the computation for the key is never run again. *)
Theorem localCache_memoizes (key : string) :
  (∀ (w : World SimpleResult.t) (getter : Q SimpleResult.t),
     cache w !! key = None →
     localCache result_truthy key getter w
     = match getter (log w) with
       | (Ok v, log') =>
           (Ok (Some v), {| cache := <[key := v]> (cache w); log := log' |})
       | (Throw e, log') => (Throw e, {| cache := cache w; log := log' |})
       end)
  ∧ (∀ (w : World SimpleResult.t) (v : SimpleResult.t),
       cache w !! key = Some v →
       ∀ getter, localCache result_truthy key getter w = (Ok (Some v), w))
  ∧ (∀ (w w1 : World SimpleResult.t) (getter : Q SimpleResult.t) r,
       localCache result_truthy key getter w = (Ok r, w1) →
       ∃ v, r = Some v
            ∧ getCached (cache w1) key = Some v
            ∧ ∀ getter',
                localCache result_truthy key getter' w1 = (Ok (Some v), w1))
  ∧ (∀ (s : Async SimpleResult.t) (v : SimpleResult.t)
       (es : list (event SimpleResult.t)),
       a_cache s !! key = Some v → quiet s key →
       a_cache (async_run result_truthy es s) !! key = Some v
       ∧ invocations (async_run result_truthy es s) key = invocations s key).
Proof.
  split; [|split; [|split]].
  - intros w getter Hnone. apply localCache_miss. exact Hnone.
  - intros w v Hv getter. apply localCache_hit. exact Hv.
  - intros w w1 getter r Hrun.
    destruct (cache w !! key) as [v|] eqn:Hv.
    + rewrite (localCache_hit _ _ _ _ Hv) in Hrun. injection Hrun as <- <-.
      exists v. split; [reflexivity|]. split; [exact Hv|].
      intros getter'. apply localCache_hit. exact Hv.
    + rewrite (localCache_miss _ _ _ Hv) in Hrun.
      destruct (getter (log w)) as [[v|e] log']; [|discriminate].
      injection Hrun as <- <-. exists v.
      assert (Hv' : <[key := v]> (cache w) !! key = Some v)
        by apply lookup_insert_eq.
      split; [reflexivity|]. split; [exact Hv'|].
      intros getter'. apply localCache_hit. exact Hv'.
  - intros s v es Hv Hq.
    destruct (async_run_stable es s key v Hv Hq) as (H1 & _ & H2).
    split; assumption.
Qed.

Lemma localCache_memoizes_witness :
  ∃ v, Some status_result = Some v
       ∧ getCached (cache status_world) "k" = Some v
       ∧ ∀ getter',
           localCache result_truthy "k" getter' status_world
           = (Ok (Some v), status_world).
Proof.
  apply (proj1 (proj2 (proj2 (localCache_memoizes "k"))) empty_world status_world
           (getTopValues sample_host status_sdk shop_model orders_explore
              status_field)).
  vm_compute. reflexivity.
Defined.


(** C5: when a call of [localCache] fails, it is the computation that
    failed; the cache is unchanged and holds nothing for the key
    ([getCached] returns nothing), and a later call for the same key runs
    its computation again instead of returning the earlier failure. *)
Theorem localCache_failure_not_cached (key : string)
    (getter : Q SimpleResult.t) (w w' : World SimpleResult.t) (e : exn) :
  localCache result_truthy key getter w = (Throw e, w') →
  getter (log w) = (Throw e, log w')
  ∧ cache w' = cache w
  ∧ getCached (cache w') key = None
  ∧ ∀ getter',
      localCache result_truthy key getter' w'
      = match getter' (log w') with
        | (Ok v, log'') =>
            (Ok (Some v),
             {| cache := <[key := v]> (cache w'); log := log'' |})
        | (Throw e', log'') =>
            (Throw e', {| cache := cache w'; log := log'' |})
        end.
Proof.
  intros Hrun.
  destruct (cache w !! key) as [v|] eqn:Hv.
  - rewrite (localCache_hit _ _ _ _ Hv) in Hrun. discriminate.
  - rewrite (localCache_miss _ _ _ Hv) in Hrun.
    destruct (getter (log w)) as [[v|e0] log']; [discriminate|].
    injection Hrun as <- <-. cbn.
    split; [reflexivity|]. split; [reflexivity|]. split; [exact Hv|].
    intros getter'.
    apply (localCache_miss key getter' {| cache := cache w; log := log' |} Hv).
Qed.

Lemma localCache_failure_not_cached_witness :
  getTopValues sample_host failing_sdk shop_model orders_explore status_field
    (log empty_world)
  = (Throw (Rejected "network error"),
     [topValuesQuery shop_model orders_explore status_field "orders.count"])
  ∧ (∅ : gmap string SimpleResult.t) = cache empty_world
  ∧ getCached (∅ : gmap string SimpleResult.t) "k" = None
  ∧ ∀ getter',
      localCache result_truthy "k" getter'
        {| cache := ∅;
           log := [topValuesQuery shop_model orders_explore status_field
                     "orders.count"] |}
      = match getter' [topValuesQuery shop_model orders_explore status_field
                         "orders.count"] with
        | (Ok v, log'') =>
            (Ok (Some v), {| cache := <["k" := v]> ∅; log := log'' |})
        | (Throw e', log'') => (Throw e', {| cache := ∅; log := log'' |})
        end.
Proof.
  apply (localCache_failure_not_cached "k"
           (getTopValues sample_host failing_sdk shop_model orders_explore
              status_field)
           empty_world
           {| cache := ∅;
              log := [topValuesQuery shop_model orders_explore status_field
                        "orders.count"] |}
           (Rejected "network error")).
  reflexivity.
Defined.

Example runChartQuery_twice :
  ∃ r w1,
    runChartQuery sample_host status_sdk sample_stringify status_values
      empty_world = (Ok (Some r), w1)
    ∧ log w1
      = [topValuesQuery shop_model orders_explore status_field "orders.count"]
    ∧ runChartQuery sample_host failing_sdk sample_stringify status_values w1
      = (Ok (Some r), w1).
Proof.
  eexists _, _. split; [reflexivity|]. split; [reflexivity|].
  apply localCache_hit. apply lookup_insert_eq.
Qed.

(** *** Calls in flight together *)
(** C9, counterexample: two calls for the same key, the second started
    before the first getter has settled.  The getter is called twice, and
    the two callers receive different results. *)
Lemma concurrent_calls_compute_twice :
  invoked (async_run result_truthy racing_calls async_init) = ["k"; "k"]
  ∧ returned (async_run result_truthy racing_calls async_init) !! 0%nat
    = Some (Ok (Some (caption_result "165 rows")))
  ∧ returned (async_run result_truthy racing_calls async_init) !! 1%nat
    = Some (Ok (Some (caption_result "166 rows")))
  ∧ caption_result "165 rows" ≠ caption_result "166 rows".
Proof.
  split; [vm_compute; reflexivity|].
  split; [vm_compute; reflexivity|].
  split; [vm_compute; reflexivity|].
  discriminate.
Qed.

(** C9 (amended): a call invokes the computation exactly when no entry is
    stored for its key at the moment it starts.  So a call that starts
    once a result is stored invokes nothing and returns the stored result,
    whereas two calls that start while no result is stored invoke the
    computation twice; every caller that invoked the computation receives
    the result of its own invocation, which is then what the cache holds. *)
Theorem async_invokes_when_absent (s : Async SimpleResult.t) (key : string) :
  (a_cache s !! key = None →
     invoked (async_step result_truthy s (Call key)) = invoked s ++ [key]
     ∧ pending (async_step result_truthy s (Call key)) !! next_call s
       = Some key)
  ∧ (∀ v, a_cache s !! key = Some v →
       invoked (async_step result_truthy s (Call key)) = invoked s
       ∧ returned (async_step result_truthy s (Call key)) !! next_call s
         = Some (Ok (Some v)))
  ∧ (a_cache s !! key = None →
       invoked (async_run result_truthy [Call key; Call key] s)
       = invoked s ++ [key; key])
  ∧ (∀ c v, pending s !! c = Some key →
       invoked (async_step result_truthy s (Settle c (Ok v))) = invoked s
       ∧ returned (async_step result_truthy s (Settle c (Ok v))) !! c
         = Some (Ok (Some v))
       ∧ a_cache (async_step result_truthy s (Settle c (Ok v))) !! key
         = Some v).
Proof.
  split; [|split; [|split]].
  - intros H. rewrite (async_call_absent _ _ H). cbn.
    split; [reflexivity | apply lookup_insert_eq].
  - intros v H. rewrite (async_call_present _ _ _ H). cbn.
    split; [reflexivity | apply lookup_insert_eq].
  - intros H. cbn [async_run fold_left]. rewrite (async_call_absent _ _ H).
    rewrite async_call_absent by exact H. cbn.
    rewrite <- app_assoc. reflexivity.
  - intros c v H. unfold async_step. rewrite H. cbn.
    rewrite !lookup_insert_eq. repeat split; reflexivity.
Qed.

Lemma async_invokes_when_absent_witness :
  invoked (async_run result_truthy [Call "k"; Call "k"]
             (@async_init SimpleResult.t))
  = [] ++ ["k"; "k"].
Proof.
  apply (proj1 (proj2 (proj2 (async_invokes_when_absent async_init "k")))).
  reflexivity.
Defined.


(** ** Dispatch *)

(** C6, counterexample: a Distribution request for the string-typed field
    "Status", for which [canGetDistribution] is false.  Nothing is
    checked: both queries are sent and a result is returned. *)
Lemma runChartQuery_unsupported_distribution :
  canGetDistribution status_field = false
  ∧ (∃ r, (runChartQuery sample_host price_sdk sample_stringify
             status_distribution empty_world).1 = Ok (Some r))
  ∧ log (runChartQuery sample_host price_sdk sample_stringify
           status_distribution empty_world).2
    = [statsQuery shop_model orders_explore status_field;
       histogramQuery shop_model orders_explore "orders.count"
         (binExpressionOf sample_host status_field
            (binsOf sample_host (JNumber 10) (JNumber 30)))].
Proof.
  split; [reflexivity|]. split; [eexists; vm_compute; reflexivity|].
  vm_compute. reflexivity.
Qed.

Lemma getDistribution_first_query (host : Host) (sdk : Sdk) (model : Model.t)
    (explore : Explore.t) (field : Field.t) (log : list InlineQuery.t) :
  ∃ qs, (getDistribution host sdk model explore field log).2
        = log ++ statsQuery model explore field :: qs.
Proof.
  unfold getDistribution; unfold_Q.
  repeat split_match;
    try (exists []; reflexivity);
    try (eexists [_]; rewrite <- app_assoc; reflexivity).
Qed.

(** C6 (amended): [runChartQuery] checks no capability.  A Values
    request for a field without companion count field fails with a
    [TypeError] (reading [name] of [undefined]) before any query is sent
    and leaves the cache empty for its key; any other uncached request
    sends the query of the kind it asks for, whatever the field's type
    and category: a Values request sends the top-values query and nothing
    else, a Distribution request sends the stats query first. *)
Theorem runChartQuery_no_capability_check
    (host : Host) (sdk : Sdk) (stringify : QueryChartType.t → string)
    (type : QueryChartType.t) (w : World SimpleResult.t) :
  (QueryChartType.type type = Values →
   countFieldForField (QueryChartType.explore type)
     (QueryChartType.field type) = None →
   cache w !! stringify type = None →
   runChartQuery host sdk stringify type w
   = (Throw (TypeError "name"), w))
  ∧ (QueryChartType.type type = Values →
     cache w !! stringify type = None →
     ∀ countField,
       countFieldForField (QueryChartType.explore type)
         (QueryChartType.field type) = Some countField →
       log (runChartQuery host sdk stringify type w).2
       = log w ++ [topValuesQuery (QueryChartType.model type)
                     (QueryChartType.explore type)
                     (QueryChartType.field type) (Field.name countField)])
  ∧ (QueryChartType.type type = Distribution →
     cache w !! stringify type = None →
     ∃ qs, log (runChartQuery host sdk stringify type w).2
           = log w ++ statsQuery (QueryChartType.model type)
                        (QueryChartType.explore type)
                        (QueryChartType.field type) :: qs).
Proof.
  unfold runChartQuery. split; [|split].
  - intros -> Hcf Hmiss. rewrite (localCache_miss _ _ _ Hmiss).
    unfold getTopValues, qbind, qlift. rewrite Hcf. cbn.
    destruct w; reflexivity.
  - intros -> Hmiss cf Hcf. rewrite (localCache_miss _ _ _ Hmiss).
    unfold getTopValues; unfold_Q.
    rewrite Hcf. cbn [field_name].
    repeat split_match; reflexivity.
  - intros -> Hmiss. rewrite (localCache_miss _ _ _ Hmiss).
    destruct (getDistribution_first_query host sdk (QueryChartType.model type)
                (QueryChartType.explore type) (QueryChartType.field type)
                (log w)) as [qs Hqs].
    exists qs.
    destruct (getDistribution _ _ _ _ _ _) as [[v|e] log']; cbn in *;
      exact Hqs.
Qed.

Lemma runChartQuery_no_capability_check_witness :
  runChartQuery sample_host status_sdk sample_stringify users_values
    empty_world
  = (Throw (TypeError "name"), empty_world).
Proof.
  apply (proj1 (runChartQuery_no_capability_check sample_host status_sdk
                  sample_stringify users_values empty_world));
    reflexivity.
Defined.

(** * Further properties of the same code *)

Lemma getTopValues_appends host sdk model explore field log :
  ∃ qs, (getTopValues host sdk model explore field log).2 = log ++ qs.
Proof.
  unfold getTopValues; unfold_Q.
  repeat split_match;
    try (exists []; rewrite app_nil_r; reflexivity);
    try (eexists [_]; reflexivity).
Qed.

Lemma getDistribution_appends host sdk model explore field log :
  ∃ qs, (getDistribution host sdk model explore field log).2 = log ++ qs.
Proof.
  destruct (getDistribution_issues host sdk model explore field log)
    as [qs [Hqs _]].
  exists qs. exact Hqs.
Qed.

Lemma localCache_ok (key : string) (getter : Q SimpleResult.t)
    (w w' : World SimpleResult.t) (r : option SimpleResult.t) :
  localCache result_truthy key getter w = (Ok r, w') →
  ∃ v, r = Some v
       ∧ cache w' !! key = Some v
       ∧ (∀ k, k ≠ key → cache w' !! k = cache w !! k)
       ∧ (w' = w ∨ (getter (log w)).2 = log w').
Proof.
  intros Hrun. destruct (cache w !! key) as [v|] eqn:Hv.
  - rewrite (localCache_hit _ _ _ _ Hv) in Hrun. injection Hrun as <- <-.
    exists v. auto.
  - rewrite (localCache_miss _ _ _ Hv) in Hrun.
    destruct (getter (log w)) as [[v|e] log'] eqn:Hg; [|discriminate].
    injection Hrun as <- <-. exists v. cbn.
    split; [reflexivity|]. split; [apply lookup_insert_eq|].
    split; [|right; reflexivity].
    intros k Hk. apply lookup_insert_ne. congruence.
Qed.

(** X3: when [runChartQuery] succeeds, its result is stored under the
    request's key ([getCached] returns it), the entries of all other keys
    are untouched, the query log has only grown, and every later request
    with the same key, whatever its fields and whatever the SDK would
    answer, returns that result and sends nothing. *)
Theorem runChartQuery_stores
    (host : Host) (sdk : Sdk) (stringify : QueryChartType.t → string)
    (type : QueryChartType.t) (w w' : World SimpleResult.t)
    (r : option SimpleResult.t) :
  runChartQuery host sdk stringify type w = (Ok r, w') →
  ∃ v, r = Some v
       ∧ getCached (cache w') (stringify type) = Some v
       ∧ (∀ k, k ≠ stringify type → getCached (cache w') k = getCached (cache w) k)
       ∧ (∃ qs, log w' = log w ++ qs)
       ∧ ∀ host' sdk' type',
           stringify type' = stringify type →
           runChartQuery host' sdk' stringify type' w' = (Ok (Some v), w').
Proof.
  unfold runChartQuery, getCached. intros Hrun.
  assert (Hgen : ∃ getter,
            localCache result_truthy (stringify type) getter w = (Ok r, w')
            ∧ ∃ qs, (getter (log w)).2 = log w ++ qs).
  { destruct (QueryChartType.type type); eexists; (split; [exact Hrun|]).
    - apply getTopValues_appends.
    - apply getDistribution_appends. }
  destruct Hgen as (getter & Hlc & qs & Hqs).
  destruct (localCache_ok _ _ _ _ _ Hlc) as (v & -> & Hv & Hframe & Hlog).
  exists v. split; [reflexivity|]. split; [exact Hv|]. split; [exact Hframe|].
  split.
  - destruct Hlog as [-> | <-]; [exists []; rewrite app_nil_r; reflexivity|].
    exists qs. exact Hqs.
  - intros host' sdk' type' Hkey. rewrite Hkey.
    destruct (QueryChartType.type type'); apply localCache_hit; exact Hv.
Qed.

Lemma async_step_cache (s : Async SimpleResult.t) (e : event SimpleResult.t)
    (k : string) :
  a_cache (async_step result_truthy s e) !! k = a_cache s !! k
  ∨ ∃ c v, e = Settle c (Ok v) ∧ pending s !! c = Some k
           ∧ a_cache (async_step result_truthy s e) !! k = Some v.
Proof.
  destruct e as [key|c out]; cbn [async_step].
  - left. destruct (localCache_enter result_truthy (a_cache s) key);
      reflexivity.
  - destruct (pending s !! c) as [key|] eqn:Hc; [|left; reflexivity].
    destruct out as [v|err]; cbn; [|left; reflexivity].
    destruct (decide (key = k)) as [->|Hne].
    + right. exists c, v. rewrite lookup_insert_eq. auto.
    + left. apply lookup_insert_ne. exact Hne.
Qed.

(** X4: no eviction.  Over any sequence of calls and settlements a key
    that has an entry keeps having one, and every value found in the cache
    either was there before or is the fulfilled result of a getter that
    settled in the meantime. *)
Theorem async_cache_never_shrinks (es : list (event SimpleResult.t)) :
  ∀ (s : Async SimpleResult.t) (k : string),
    (is_Some (a_cache s !! k) →
     is_Some (a_cache (async_run result_truthy es s) !! k))
    ∧ (∀ v, a_cache (async_run result_truthy es s) !! k = Some v →
         a_cache s !! k = Some v
         ∨ ∃ c, In (Settle c (Ok v)) es).
Proof.
  induction es as [|e es IH]; intros s k.
  - cbn. split; [auto | intros v Hv; left; exact Hv].
  - change (async_run result_truthy (e :: es) s)
      with (async_run result_truthy es (async_step result_truthy s e)).
    destruct (IH (async_step result_truthy s e) k) as [IH1 IH2].
    split.
    + intros Hs. apply IH1.
      destruct (async_step_cache s e k) as [-> | (c & v & _ & _ & ->)];
        [exact Hs | eexists; reflexivity].
    + intros v Hv. destruct (IH2 v Hv) as [Hstep | [c Hin]].
      * destruct (async_step_cache s e k) as [Heq | (c & v' & -> & _ & Hv')].
        -- left. rewrite <- Heq. exact Hstep.
        -- right. exists c. left. congruence.
      * right. exists c. right. exact Hin.
Qed.

(** X5: a rejection of the query service ends the summarizer with that
    same error, after the rejected query has been logged: the top-values
    query, the stats query, and the per-bin query (in which case the
    min/max/average already obtained are not returned). *)
Theorem query_failure_propagates
    (host : Host) (sdk : Sdk) (model : Model.t) (explore : Explore.t)
    (field : Field.t) (log : list InlineQuery.t) (e : exn) :
  (∀ countField,
     countFieldForField explore field = Some countField →
     sdk log (topValuesQuery model explore field (Field.name countField))
     = Throw e →
     getTopValues host sdk model explore field log
     = (Throw e,
        log ++ [topValuesQuery model explore field (Field.name countField)]))
  ∧ (sdk log (statsQuery model explore field) = Throw e →
     getDistribution host sdk model explore field log
     = (Throw e, log ++ [statsQuery model explore field]))
  ∧ (∀ qr row0 min max countField,
       sdk log (statsQuery model explore field) = Ok qr →
       Response.data qr !! 0%nat = Some row0 →
       row0 !! "min" = Some min →
       row0 !! "max" = Some max →
       truthy (Cell.value min) = true →
       countFieldForField explore field = Some countField →
       sdk (log ++ [statsQuery model explore field])
         (histogramQuery model explore (Field.name countField)
            (binExpressionOf host field
               (binsOf host (Cell.value min) (Cell.value max)))) = Throw e →
       getDistribution host sdk model explore field log
       = (Throw e,
          log ++ [statsQuery model explore field;
                  histogramQuery model explore (Field.name countField)
                    (binExpressionOf host field
                       (binsOf host (Cell.value min) (Cell.value max)))])).
Proof.
  split; [|split].
  - intros cf Hcf Hsdk. unfold getTopValues; unfold_Q.
    rewrite Hcf; cbn [field_name]. rewrite Hsdk. reflexivity.
  - intros Hsdk. unfold getDistribution; unfold_Q. rewrite Hsdk. reflexivity.
  - intros qr row0 min max cf Hsdk Hrow Hmin Hmax Ht Hcf Hsdk2.
    unfold getDistribution; unfold_Q.
    rewrite Hsdk, Hrow, Hmin, Hmax. cbn [cell_value]. rewrite Ht, Hcf.
    cbn [field_name]. rewrite Hsdk2. rewrite <- app_assoc. reflexivity.
Qed.

(** X6: [getDistribution] needs the companion count field only for the
    histogram.  Without one and with a truthy [min.value] it fails with a
    [TypeError] (reading [name] of [undefined]) after the stats query and
    before any per-bin query, although [canGetDistribution] does not look
    at the count field. *)
Theorem getDistribution_without_count_field
    (host : Host) (sdk : Sdk) (model : Model.t) (explore : Explore.t)
    (field : Field.t) (log : list InlineQuery.t) (qr : Response.t)
    (row0 : gmap string Cell.t) (min max : Cell.t) :
  countFieldForField explore field = None →
  sdk log (statsQuery model explore field) = Ok qr →
  Response.data qr !! 0%nat = Some row0 →
  row0 !! "min" = Some min →
  row0 !! "max" = Some max →
  truthy (Cell.value min) = true →
  getDistribution host sdk model explore field log
  = (Throw (TypeError "name"), log ++ [statsQuery model explore field]).
Proof.
  intros Hcf Hsdk Hrow Hmin Hmax Ht.
  unfold getDistribution; unfold_Q.
  rewrite Hsdk, Hrow, Hmin, Hmax. cbn [cell_value]. rewrite Ht, Hcf.
  reflexivity.
Qed.


Lemma rfilter_first {A} (f : A → Result bool) (xs1 xs2 ys : list A) (x : A) :
  rfilter f (xs1 ++ x :: xs2) = Ok ys →
  Forall (λ y, f y = Ok true → False) xs1 →
  f x = Ok true →
  head ys = Some x.
Proof.
  revert ys. induction xs1 as [|a xs1 IH]; intros ys Hrun Hall Hx; cbn in Hrun.
  - rewrite Hx in Hrun. cbn in Hrun.
    destruct (rfilter f xs2); [|discriminate]. cbn in Hrun.
    injection Hrun as <-. reflexivity.
  - inversion Hall as [|? ? Ha Hxs1]; subst.
    destruct (f a) as [[|]|] eqn:Hfa; [exfalso; auto| |discriminate].
    cbn in Hrun.
    destruct (rfilter f (xs1 ++ x :: xs2)) as [ys0|]; [|discriminate].
    cbn in Hrun. injection Hrun as <-. apply IH; auto.
Qed.

Lemma rfilter_skip {A} (f : A → Result bool) (xs1 xs2 : list A) (x : A) :
  f x = Ok false →
  rfilter f (xs1 ++ x :: xs2) = rfilter f (xs1 ++ xs2).
Proof.
  intros Hx. induction xs1 as [|a xs1 IH]; cbn.
  - rewrite Hx. cbn. destruct (rfilter f xs2); reflexivity.
  - rewrite IH. reflexivity.
Qed.

Lemma rimap_from_ext {A B} (f g : nat → A → Result B) (xs : list A) :
  (∀ i x, f i x = g i x) → ∀ k, rimap_from k f xs = rimap_from k g xs.
Proof.
  intros Hfg. induction xs as [|x xs IH]; intros k; cbn; [reflexivity|].
  rewrite Hfg, IH. reflexivity.
Qed.

(** X8: when several returned rows match a bin index, the bin takes the
    count of the first of them. *)
Theorem histogram_first_match
    (host : Host) (before after : list (gmap string Cell.t))
    (row : gmap string Cell.t) (countName : string)
    (bins : list (prim * prim)) (h : Histogram.t) (i : nat) (b : Bin.t)
    (bin count : Cell.t) :
  histogramOf host (before ++ row :: after) countName bins = Ok h →
  Histogram.data h !! i = Some b →
  Forall (λ r : gmap string Cell.t,
            ∀ c, r !! "bin" = Some c →
                 loose_eq_number host (Cell.value c) (num_of_nat i) = false)
         before →
  row !! "bin" = Some bin →
  loose_eq_number host (Cell.value bin) (num_of_nat i) = true →
  row !! countName = Some count →
  Bin.value b = Cell.value count.
Proof.
  intros Hh Hb Hbefore Hbin Hmatch Hcount.
  unfold histogramOf in Hh.
  destruct (rimap_from 0 _ bins) as [data|] eqn:Hdata; [|discriminate].
  cbn in Hh. injection Hh as <-. cbn [Histogram.data] in Hb.
  destruct (rimap_from_lookup _ _ _ _ Hdata) as [_ Hlook].
  destruct (Hlook _ _ Hb) as [bd [_ Hf]]. cbn [Nat.add] in Hf.
  unfold binDatum, rowsOfBin in Hf.
  destruct (rfilter _ (before ++ row :: after)) as [matching|] eqn:Hm;
    [|discriminate].
  apply rfilter_first in Hm.
  - cbn [rbind] in Hf. rewrite Hm in Hf. rewrite Hcount in Hf.
    cbn in Hf. injection Hf as <-. reflexivity.
  - eapply Forall_impl; [exact Hbefore|].
    intros r Hr Heq. cbn beta in Hr.
    destruct (r !! "bin") as [c|] eqn:Hc; [|discriminate].
    cbn [rbind cell_value] in Heq. rewrite (Hr c eq_refl) in Heq.
    discriminate.
  - rewrite Hbin. cbn [rbind cell_value]. rewrite Hmatch. reflexivity.
Qed.

(** X9: a returned row whose bin is [null] or [undefined] is counted in
    no bin: the histogram is the same with and without it. *)
Theorem histogram_ignores_null_bins
    (host : Host) (before after : list (gmap string Cell.t))
    (row : gmap string Cell.t) (countName : string)
    (bins : list (prim * prim)) (bin : Cell.t) :
  row !! "bin" = Some bin →
  Cell.value bin = JNull ∨ Cell.value bin = JUndefined →
  histogramOf host (before ++ row :: after) countName bins
  = histogramOf host (before ++ after) countName bins.
Proof.
  intros Hbin Hnull. unfold histogramOf. f_equal.
  apply rimap_from_ext. intros i bd. unfold binDatum, rowsOfBin.
  rewrite rfilter_skip; [reflexivity|].
  rewrite Hbin. cbn [rbind cell_value].
  destruct Hnull as [-> | ->]; reflexivity.
Qed.

Lemma formatData_throws (host : Host) (d : option Cell.t) (e : exn) :
  formatData host d = Throw e → d = None ∧ e = TypeError "links".
Proof. destruct d; cbn; [discriminate|]. intros [= <-]. auto. Qed.

Lemma rmap_cells_missing (host : Host) (fieldName countName : string)
    (rows : list (gmap string Cell.t)) :
  Exists (λ row : gmap string Cell.t,
            row !! fieldName = None ∨ row !! countName = None) rows →
  rmap (λ row : gmap string Cell.t,
          try! a := formatData host (row !! fieldName) in
          try! b := formatData host (row !! countName) in
          Ok [a; b]) rows
  = Throw (TypeError "links").
Proof.
  induction rows as [|row rows IH]; intros Hex; [inversion Hex|].
  cbn [rmap].
  destruct (formatData host (row !! fieldName)) as [a|e] eqn:Ha.
  - destruct (formatData host (row !! countName)) as [b|e] eqn:Hb.
    + cbn [rbind]. rewrite IH; [reflexivity|].
      inversion Hex as [? ? [H|H]|]; subst; [| |assumption].
      * rewrite H in Ha. discriminate.
      * rewrite H in Hb. discriminate.
    + apply formatData_throws in Hb. destruct Hb as [_ ->]. reflexivity.
  - apply formatData_throws in Ha. destruct Ha as [_ ->]. reflexivity.
Qed.

(** X10: [getTopValues] on incomplete answers.  A row without the field
    cell or the count cell makes it fail with a [TypeError] (reading
    [links] of [undefined]); complete rows without [totals_data] make it
    fail with a [TypeError] when the grand total is read; in both cases
    after the query was sent. *)
Theorem getTopValues_malformed_response
    (host : Host) (sdk : Sdk) (model : Model.t) (explore : Explore.t)
    (field countField : Field.t) (log : list InlineQuery.t)
    (qr : Response.t) :
  countFieldForField explore field = Some countField →
  sdk log (topValuesQuery model explore field (Field.name countField)) = Ok qr →
  (Exists (λ row : gmap string Cell.t,
             row !! Field.name field = None
             ∨ row !! Field.name countField = None) (Response.data qr) →
   getTopValues host sdk model explore field log
   = (Throw (TypeError "links"),
      log ++ [topValuesQuery model explore field (Field.name countField)]))
  ∧ (Response.data qr ≠ [] →
     Forall (λ row : gmap string Cell.t,
               is_Some (row !! Field.name field)
               ∧ is_Some (row !! Field.name countField)) (Response.data qr) →
     Response.totals_data qr = None →
     getTopValues host sdk model explore field log
     = (Throw (TypeError (Field.name countField)),
        log ++ [topValuesQuery model explore field (Field.name countField)])).
Proof.
  intros Hcf Hsdk. split.
  - intros Hex. unfold getTopValues; unfold_Q.
    rewrite Hcf; cbn [field_name]. rewrite Hsdk.
    rewrite (rmap_cells_missing host _ _ _ Hex). reflexivity.
  - intros Hne Hall Htot. unfold getTopValues; unfold_Q.
    rewrite Hcf; cbn [field_name]. rewrite Hsdk.
    set (fmt := λ row : gmap string Cell.t,
           try! a := formatData host (row !! Field.name field) in
           try! b := formatData host (row !! Field.name countField) in
           Ok [a; b]).
    assert (Hok : Forall (λ x, ∃ y, fmt x = Ok y) (Response.data qr)).
    { eapply Forall_impl; [exact Hall|].
      intros row [[c1 H1] [c2 H2]]. unfold fmt. rewrite H1, H2.
      eexists; reflexivity. }
    destruct (rmap_Forall2 fmt _ Hok) as [data [-> HF2]].
    destruct (Response.data qr) as [|row0 rows]; [contradiction|].
    inversion HF2 as [|? d0 ? ds Hd0 _]; subst.
    unfold fmt in Hd0.
    destruct (formatData host (row0 !! Field.name field)); [|discriminate].
    destruct (formatData host (row0 !! Field.name countField));
      [|discriminate].
    cbn in Hd0. injection Hd0 as <-. cbn. rewrite Htot. reflexivity.
Qed.

(** X11: when the first row's count is not a number, the second
    per-column max of a successful result is NaN, not absent. *)
Theorem getTopValues_max_nan
    (host : Host) (sdk : Sdk) (model : Model.t) (explore : Explore.t)
    (field countField : Field.t) (log : list InlineQuery.t)
    (qr : Response.t) (row0 : gmap string Cell.t) (cell0 : Cell.t)
    (r : SimpleResult.t) (log' : list InlineQuery.t) :
  countFieldForField explore field = Some countField →
  sdk log (topValuesQuery model explore field (Field.name countField)) = Ok qr →
  Response.data qr !! 0%nat = Some row0 →
  row0 !! Field.name countField = Some cell0 →
  typeof_number (Cell.value cell0) = false →
  getTopValues host sdk model explore field log = (Ok r, log') →
  SimpleResult.max r = [None; Some nan].
Proof.
  intros Hcf Hsdk Hrow Hc0 Hty.
  unfold getTopValues, qbind, qlift, qret, run_inline_query.
  rewrite Hcf; cbn [field_name]. rewrite Hsdk.
  destruct (Response.data qr) as [|row rows]; [discriminate|].
  cbn in Hrow. injection Hrow as ->. cbn [rmap]. rewrite Hc0.
  destruct (formatData host (row0 !! Field.name field)) as [a|];
    [|discriminate].
  cbn [rbind formatData].
  destruct (rmap _ rows) as [ds|]; [|discriminate].
  cbn [rbind first_count lookup list_lookup SimpleDatum.n].
  destruct (Cell.value cell0); try discriminate;
    cbn; destruct (totals_value _ _); try discriminate;
    cbn; destruct (toLocaleString host _); try discriminate;
    intros [= <- <-]; reflexivity.
Qed.

(** X12: when [canGetTopValues] holds, [getTopValues] sends exactly one
    query, the top-values query for the companion count field, whatever
    the outcome. *)
Theorem canGetTopValues_sends_query
    (host : Host) (sdk : Sdk) (model : Model.t) (explore : Explore.t)
    (field : Field.t) (log : list InlineQuery.t) :
  canGetTopValues explore field = true →
  ∃ countField,
    countFieldForField explore field = Some countField
    ∧ (getTopValues host sdk model explore field log).2
      = log ++ [topValuesQuery model explore field (Field.name countField)].
Proof.
  unfold canGetTopValues. rewrite andb_true_iff, !bool_decide_eq_true.
  intros [_ [cf Hcf]]. exists cf. split; [exact Hcf|].
  unfold getTopValues; unfold_Q. rewrite Hcf; cbn [field_name].
  repeat split_match; reflexivity.
Qed.

Lemma runChartQuery_stores_witness :
  ∃ v, Some status_result = Some v
       ∧ getCached (cache status_cached_world)
           (sample_stringify status_values) = Some v
       ∧ (∀ k, k ≠ sample_stringify status_values →
            getCached (cache status_cached_world) k
            = getCached (cache empty_world) k)
       ∧ (∃ qs, log status_cached_world = log empty_world ++ qs)
       ∧ ∀ host' sdk' type',
           sample_stringify type' = sample_stringify status_values →
           runChartQuery host' sdk' sample_stringify type' status_cached_world
           = (Ok (Some v), status_cached_world).
Proof.
  apply (runChartQuery_stores sample_host status_sdk sample_stringify
           status_values empty_world status_cached_world
           (Some status_result)).
  vm_compute. reflexivity.
Defined.

Lemma async_cache_never_shrinks_witness :
  a_cache (@async_init SimpleResult.t) !! "k"
  = Some (caption_result "166 rows")
  ∨ ∃ c, In (Settle c (Ok (caption_result "166 rows"))) racing_calls.
Proof.
  apply (proj2 (async_cache_never_shrinks racing_calls async_init "k")).
  vm_compute. reflexivity.
Defined.

Lemma query_failure_propagates_witness :
  getDistribution sample_host failing_sdk shop_model orders_explore
    price_field []
  = (Throw (Rejected "network error"),
     [] ++ [statsQuery shop_model orders_explore price_field]).
Proof.
  apply (proj1 (proj2 (query_failure_propagates sample_host failing_sdk
                         shop_model orders_explore price_field []
                         (Rejected "network error")))).
  reflexivity.
Defined.

Lemma getDistribution_without_count_field_witness :
  canGetDistribution price_field = true
  ∧ getDistribution sample_host price_sdk shop_model users_explore
      price_field []
    = (Throw (TypeError "name"),
       [] ++ [statsQuery shop_model users_explore price_field]).
Proof.
  split; [reflexivity|].
  apply (getDistribution_without_count_field sample_host price_sdk shop_model
           users_explore price_field []
           {| Response.data :=
                [stats_row (JNumber 10) (JNumber 30) (JNumber 20)];
              Response.totals_data := None |}
           (stats_row (JNumber 10) (JNumber 30) (JNumber 20))
           (mkCell (JNumber 10)) (mkCell (JNumber 30)));
    vm_compute; reflexivity.
Defined.


Lemma histogram_first_match_witness :
  histogramOf sample_host ([] ++ bin_row 0 7 :: [bin_row 0 9])
    "orders.count" one_bin = Ok one_bin_histogram
  ∧ JNumber 7 = Cell.value (mkCell (JNumber 7)).
Proof.
  split; [vm_compute; reflexivity|].
  apply (histogram_first_match sample_host [] [bin_row 0 9] (bin_row 0 7)
           "orders.count" one_bin one_bin_histogram 0
           {| Bin.value := JNumber 7; Bin.min := JNumber 10;
              Bin.max := JNumber 11 |}
           (mkCell (JNumber 0)) (mkCell (JNumber 7)));
    try (vm_compute; reflexivity).
  constructor.
Defined.

Lemma histogram_ignores_null_bins_witness :
  histogramOf sample_host ([bin_row 0 7] ++ null_bin_row 5 :: [])
    "orders.count" one_bin
  = histogramOf sample_host ([bin_row 0 7] ++ []) "orders.count" one_bin.
Proof.
  apply (histogram_ignores_null_bins sample_host [bin_row 0 7] []
           (null_bin_row 5) "orders.count" one_bin (mkCell JNull)).
  - vm_compute. reflexivity.
  - left. reflexivity.
Defined.

Lemma getTopValues_malformed_response_witness :
  getTopValues sample_host no_totals_sdk shop_model orders_explore
    status_field []
  = (Throw (TypeError (Field.name orders_count)),
     [] ++ [topValuesQuery shop_model orders_explore status_field
              (Field.name orders_count)]).
Proof.
  apply (proj2 (getTopValues_malformed_response sample_host no_totals_sdk
                  shop_model orders_explore status_field orders_count []
                  no_totals_response eq_refl eq_refl)).
  - discriminate.
  - repeat constructor; vm_compute; eauto.
  - reflexivity.
Defined.

Example getTopValues_no_totals :
  getTopValues sample_host no_totals_sdk shop_model orders_explore
    status_field []
  = (Throw (TypeError "orders.count"),
     [topValuesQuery shop_model orders_explore status_field "orders.count"]).
Proof. vm_compute. reflexivity. Qed.

Lemma getTopValues_max_nan_witness :
  SimpleResult.max text_count_result = [None; Some nan].
Proof.
  apply (getTopValues_max_nan sample_host text_count_sdk shop_model
           orders_explore status_field orders_count [] text_count_response
           (<["orders.status" := mkCell (JString "Shipped")]>
              (<["orders.count" := mkCell (JString "many")]> ∅))
           (mkCell (JString "many")) text_count_result
           [topValuesQuery shop_model orders_explore status_field
              "orders.count"]);
    vm_compute; reflexivity.
Defined.

Lemma canGetTopValues_sends_query_witness :
  ∃ countField,
    countFieldForField orders_explore status_field = Some countField
    ∧ (getTopValues sample_host status_sdk shop_model orders_explore
         status_field []).2
      = [] ++ [topValuesQuery shop_model orders_explore status_field
                 (Field.name countField)].
Proof.
  apply (canGetTopValues_sends_query sample_host status_sdk shop_model
           orders_explore status_field []).
  reflexivity.
Defined.

(** X13: in every successful top-values result each cell's [v] is a
    string, there is no histogram, and the caption ends in " rows". *)
Theorem getTopValues_cells_are_strings
    (host : Host) (sdk : Sdk) (model : Model.t) (explore : Explore.t)
    (field : Field.t) (log log' : list InlineQuery.t) (r : SimpleResult.t) :
  getTopValues host sdk model explore field log = (Ok r, log') →
  Forall (Forall (λ d, ∃ s, SimpleDatum.v d = JString s))
         (SimpleResult.data r)
  ∧ SimpleResult.histogram r = None
  ∧ ∃ total, SimpleResult.aux r = Some (total +:+ " rows").
Proof.
  intros Hrun.
  unfold getTopValues, qbind, qlift, qret, run_inline_query in Hrun.
  destruct (field_name _) as [cn|]; [|discriminate].
  destruct (sdk log _) as [qr|]; [|discriminate].
  destruct (rmap _ (Response.data qr)) as [data|] eqn:Hdata; [|discriminate].
  destruct (first_count data); [|discriminate].
  destruct (totals_value _ _); [|discriminate].
  destruct (toLocaleString host _) as [total|]; [|discriminate].
  injection Hrun as <- <-. cbn.
  split; [|split; [reflexivity | exists total; reflexivity]].
  eapply rmap_Forall; [|exact Hdata].
  intros row cells Hc. cbn beta in Hc.
  assert (Hfmt : ∀ d c, formatData host d = Ok c →
                        ∃ s, SimpleDatum.v c = JString s).
  { intros [c0|] c; cbn; [|discriminate]. intros [= <-]. cbn.
    unfold js_or. destruct (truthy (opt_string (Cell.rendered c0))) eqn:Ht.
    - destruct (Cell.rendered c0); [eexists; reflexivity | discriminate].
    - eexists; reflexivity. }
  destruct (formatData host (row !! Field.name field)) as [c1|] eqn:Hc1;
    [|discriminate].
  destruct (formatData host (row !! cn)) as [c2|] eqn:Hc2; [|discriminate].
  cbn in Hc. injection Hc as <-.
  repeat constructor; eapply Hfmt; eassumption.
Qed.

Lemma getTopValues_cells_are_strings_witness :
  Forall (Forall (λ d, ∃ s, SimpleDatum.v d = JString s))
         (SimpleResult.data status_result)
  ∧ SimpleResult.histogram status_result = None
  ∧ ∃ total, SimpleResult.aux status_result = Some (total +:+ " rows").
Proof.
  apply (getTopValues_cells_are_strings sample_host status_sdk shop_model
           orders_explore status_field []
           [topValuesQuery shop_model orders_explore status_field
              "orders.count"]
           status_result).
  vm_compute. reflexivity.
Defined.
